(** * Regional cut of the ORCA coordinate grid

    A shallow embedding of [source_file.py]: [grid_selector] cuts one 2-D
    field out of the parent coordinate file, [create_dataset] does so for
    every configured coordinate field, and [main] stitches the Atlantic and the
    Pacific patch along the row axis and stores the result.

    The arrays are the values of [xarray] variables with the two dimensions
    (y, x).  Slicing and flipping in numpy produce index-remapped views, so an
    array is modelled by its shape together with its indexing function. *)

From Stdlib Require Import ZArith NArith String List Lia.
From stdpp Require Import base gmap strings list.

Open Scope Z_scope.

(** ** Exceptions and results *)

Inductive exception : Type :=
| ValueError (msg : string)
| UnboundLocalError (name : string)
| KeyError (key : string)
| FileNotFoundError (path : string)
| AlignmentError (dim : string)
| OSError (path : string).

Inductive result (X : Type) : Type :=
| Ok (x : X)
| Raise (e : exception).

Arguments Ok {X} x.
Arguments Raise {X} e.

Global Instance result_ret : MRet result := fun X x => Ok x.

Global Instance result_bind : MBind result := fun X Y k r =>
  match r with
  | Ok x => k x
  | Raise e => Raise e
  end.

Definition is_ok {X : Type} (r : result X) : Prop := exists x, r = Ok x.

(** The text [t] contains the text [s]. *)
Definition mentions (s t : string) : Prop :=
  exists pre suf, t = pre +:+ s +:+ suf.

(** ** Module constants *)

Definition PACIFIC_Y_INDICES : Z * Z := (7550, -2).
Definition ATLANTIC_Y_INDICES : Z * Z := (7350, -1).
Definition PACIFIC_X_INDICES : Z * Z := (1500, 5900).
Definition TARGET_PATH : string :=
  "/mnt/localssd/Data_nemo/Meshes_domains/Coordinates/Regional".
Definition TARGET_NAME : string := "arct_cutorca36_coord.nc".
Definition PARENT_FILE : string :=
  "/mnt/localssd/Data_nemo/Meshes_domains/Coordinates/Global/ORCA_R36_coord_new.nc".

Definition T_VARS : list string :=
  ["nav_lon"; "nav_lat"; "glamt"; "gphit"; "e1t"; "e2t"].
Definition U_VARS : list string := ["glamu"; "gphiu"; "e1u"; "e2u"].
Definition V_VARS : list string := ["glamv"; "gphiv"; "e1v"; "e2v"].
Definition F_VARS : list string := ["glamf"; "gphif"; "e1f"; "e2f"].

(** [T_VARS + U_VARS + V_VARS + F_VARS], the iteration order of
    [create_dataset]. *)
Definition ALL_VARS : list string := T_VARS ++ U_VARS ++ V_VARS ++ F_VARS.

(** The list [extent = [y_min, y_max, x_min, x_max]] of the docstring. *)
Record extent : Type := Extent { y_min : Z; y_max : Z; x_min : Z; x_max : Z }.

(** The four grid-point families of the specification, with the variable
    list and the window each one stands for. *)
Inductive family : Type := Center | EastFace | NorthFace | Corner.

Definition family_vars (f : family) : list string :=
  match f with
  | Center => T_VARS
  | EastFace => U_VARS
  | NorthFace => V_VARS
  | Corner => F_VARS
  end.

Definition family_window (f : family) (e : extent) : extent :=
  match f with
  | Center => e
  | EastFace => Extent (y_min e) (y_max e) (x_min e - 1) (x_max e - 1)
  | NorthFace => Extent (y_min e - 1) (y_max e - 1) (x_min e) (x_max e)
  | Corner => Extent (y_min e - 1) (y_max e - 1) (x_min e - 1) (x_max e - 1)
  end.

(** ** Two-dimensional arrays *)

Section Arrays.
Context {A : Type}.

(** [cell a i j] is [a[i, j]]; only indices below the shape are meaningful. *)
Record ndarray : Type := NDArray { nrows : N; ncols : N; cell : N -> N -> A }.

Definition shape (a : ndarray) : N * N := (nrows a, ncols a).

(** The view of [rn] rows from row [r0] and [cn] columns from column [c0]. *)
Definition crop (r0 rn c0 cn : N) (a : ndarray) : ndarray :=
  {| nrows := rn; ncols := cn;
     cell := fun i j => cell a (r0 + i)%N (c0 + j)%N |}.

(** [np.flip(m)] without an axis argument reverses every axis. *)
Definition np_flip (a : ndarray) : ndarray :=
  {| nrows := nrows a; ncols := ncols a;
     cell := fun i j => cell a (nrows a - 1 - i)%N (ncols a - 1 - j)%N |}.

(** Reversal of a single axis, for comparison with [np_flip]. *)
Definition flip_rows (a : ndarray) : ndarray :=
  {| nrows := nrows a; ncols := ncols a;
     cell := fun i j => cell a (nrows a - 1 - i)%N j |}.

Definition flip_cols (a : ndarray) : ndarray :=
  {| nrows := nrows a; ncols := ncols a;
     cell := fun i j => cell a i (ncols a - 1 - j)%N |}.

(** Stacking along the row axis: the rows of [a], then the rows of [b]. *)
Definition vstack (a b : ndarray) : ndarray :=
  {| nrows := nrows a + nrows b; ncols := ncols a;
     cell := fun i j =>
       if (i <? nrows a)%N then cell a i j else cell b (i - nrows a)%N j |}.

(** The array written out row by row. *)
Definition N_range (n : N) : list N := map N.of_nat (seq 0 (N.to_nat n)).

Definition to_lists (a : ndarray) : list (list A) :=
  map (fun i => map (fun j => cell a i j) (N_range (ncols a)))
      (N_range (nrows a)).

Definition shape_eqb (s t : N * N) : bool :=
  (fst s =? fst t)%N && (snd s =? snd t)%N.
End Arrays.

Arguments ndarray A : clear implicits.

(** ** Axis slicing

    [.sel(y=slice(lo, hi))] turns the two bounds into a start position and a
    number of positions on an axis of [n] entries.  Which rule applies is
    decided by [xarray] from the file: positions for a dimension without
    coordinate labels, labels otherwise.  The selector is therefore embedded
    over an arbitrary rule, and the two rules are given below. *)

(** Python's [slice(lo, hi).indices(n)]: negative bounds count from the end,
    bounds are clamped to the axis, the upper bound is excluded. *)
Definition clamp_index (n : N) (i : Z) : Z :=
  if i <? 0 then Z.max (i + Z.of_N n) 0 else Z.min i (Z.of_N n).

Definition positional_slice (n : N) (lo hi : Z) : N * N :=
  let start := clamp_index n lo in
  let stop := clamp_index n hi in
  (Z.to_N start, Z.to_N (stop - start)).

(** Label slicing over the labels [0 .. n-1]: both bounds are included and
    labels outside the axis select nothing. *)
Definition label_slice (n : N) (lo hi : Z) : N * N :=
  let start := Z.max 0 (Z.min lo (Z.of_N n)) in
  let stop := Z.max 0 (Z.min (hi + 1) (Z.of_N n)) in
  (Z.to_N start, Z.to_N (stop - start)).

(** ** The selector and the assembler *)

Section Regional.
Context {A : Type}.
Context (axis_slice : N -> Z -> Z -> N * N).

(** An [xarray.Dataset] whose variables all live on the dimensions (y, x),
    as the parent file is after [.squeeze()]. *)
Record Dataset : Type :=
  { dim_y : N; dim_x : N; variables : gmap string (ndarray A) }.

(** [field.sel(y=slice(y0, y1), x=slice(x0, x1)).values] *)
Definition sel (field : ndarray A) (y0 y1 x0 x1 : Z) : ndarray A :=
  let '(r0, rn) := axis_slice (nrows field) y0 y1 in
  let '(c0, cn) := axis_slice (ncols field) x0 x1 in
  crop r0 rn c0 cn field.

Definition sel_extent (field : ndarray A) (e : extent) : ndarray A :=
  sel field (y_min e) (y_max e) (x_min e) (x_max e).

Definition not_found (var : string) : string :=
  "Variable " +:+ var +:+ " not found in the dataset.".

(** The local [grid_array] is bound by the branch that is taken; the
    Pacific chain of [if]/[elif] has no [else], so it may stay unbound and
    [return grid_array] then raises. *)
Definition grid_selector (pcf : Dataset) (var : string) (e : extent)
    (pac_patch : bool) : result (ndarray A) :=
  match variables pcf !! var with
  | None => Raise (ValueError (not_found var))
  | Some field =>
      let grid_array : option (ndarray A) :=
        if pac_patch then
          if decide (var ∈ T_VARS) then
            Some (np_flip (sel field (y_min e) (y_max e) (x_min e) (x_max e)))
          else if decide (var ∈ U_VARS) then
            Some (np_flip
                    (sel field (y_min e) (y_max e) (x_min e - 1) (x_max e - 1)))
          else if decide (var ∈ V_VARS) then
            Some (np_flip
                    (sel field (y_min e - 1) (y_max e - 1) (x_min e) (x_max e)))
          else if decide (var ∈ F_VARS) then
            Some (np_flip
                    (sel field (y_min e - 1) (y_max e - 1)
                         (x_min e - 1) (x_max e - 1)))
          else None
        else Some (sel field (y_min e) (y_max e) (x_min e) (x_max e)) in
      match grid_array with
      | Some a => Ok a
      | None => Raise (UnboundLocalError "grid_array")
      end
  end.

(** [xr.Dataset(data_vars)]: every entry is attached to the dimensions
    [["y", "x"]], so the constructor accepts the dictionary only if all
    arrays agree on both sizes. *)
Definition xr_Dataset (data_vars : gmap string (ndarray A)) : result Dataset :=
  match map_to_list data_vars with
  | [] => Ok {| dim_y := 0; dim_x := 0; variables := data_vars |}
  | (_, a) :: _ =>
      if forallb (fun kv => shape_eqb (shape (snd kv)) (shape a))
                 (map_to_list data_vars)
      then Ok {| dim_y := nrows a; dim_x := ncols a; variables := data_vars |}
      else Raise (ValueError "conflicting sizes for dimension")
  end.

(** The loop of [create_dataset] over the remaining variable names. *)
Fixpoint fill_data_vars (pcf : Dataset) (e : extent) (pac_patch : bool)
    (vars : list string) (data_vars : gmap string (ndarray A))
    : result (gmap string (ndarray A)) :=
  match vars with
  | [] => Ok data_vars
  | var :: rest =>
      a ← grid_selector pcf var e pac_patch;
      fill_data_vars pcf e pac_patch rest (<[var := a]> data_vars)
  end.

Definition create_dataset (pcf : Dataset) (e : extent) (pac_patch : bool)
    : result Dataset :=
  data_vars ← fill_data_vars pcf e pac_patch ALL_VARS ∅;
  xr_Dataset data_vars.

(** [xr.concat([a, b], dim='y')]: the same variables on both sides and the
    same size along x; each variable is stacked along the rows.  Sizes along
    x that differ cannot be aligned: [xarray] raises its [AlignmentError], a
    subclass of [ValueError], for the dimension x. *)
Definition concat_pair (a b : Dataset) : result Dataset :=
  if negb (bool_decide (dom (variables a) = dom (variables b))) then
    Raise (ValueError "variables present in some datasets but not others")
  else if negb (dim_x a =? dim_x b)%N then
    Raise (AlignmentError "x")
  else
    Ok {| dim_y := dim_y a + dim_y b; dim_x := dim_x a;
          variables := map_zip_with vstack (variables a) (variables b) |}.

Fixpoint xr_concat (objs : list Dataset) : result Dataset :=
  match objs with
  | [] => Raise (ValueError "must supply at least one object to concatenate")
  | [d] => Ok d
  | d :: rest => r ← xr_concat rest; concat_pair d r
  end.

(** A dataset is [complete] when it holds every configured field, and
    [uniform] when each of its variables spans both dimensions in full, as
    [xarray] guarantees for variables on (y, x). *)
Definition complete (pcf : Dataset) : Prop :=
  forall v, v ∈ ALL_VARS -> is_Some (variables pcf !! v).

Definition uniform (pcf : Dataset) : Prop :=
  forall v a, variables pcf !! v = Some a -> shape a = (dim_y pcf, dim_x pcf).

(** The window [lo:hi] on an axis of [n] entries keeps its length when both
    bounds are lowered by one. *)
Definition shift_stable (n : N) (lo hi : Z) : Prop :=
  snd (axis_slice n (lo - 1) (hi - 1)) = snd (axis_slice n lo hi).

(** *** The extents computed by [main] *)

(** [int(size / 2)]: the quotient of a size by two is exact in double
    precision for every size an axis can have, and [int] truncates. *)
Definition x_middle (x_size : N) : Z := Z.quot (Z.of_N x_size) 2.

Definition atl_first_xind (x_size : N) : Z :=
  snd PACIFIC_X_INDICES + (x_middle x_size - snd PACIFIC_X_INDICES) * 2 + 1.

Definition atl_last_xind (x_size : N) : Z :=
  Z.of_N x_size - fst PACIFIC_X_INDICES + 1.

Definition atl_extent (x_size : N) : extent :=
  Extent (fst ATLANTIC_Y_INDICES) (snd ATLANTIC_Y_INDICES)
         (atl_first_xind x_size) (atl_last_xind x_size).

Definition pac_extent : extent :=
  Extent (fst PACIFIC_Y_INDICES) (snd PACIFIC_Y_INDICES)
         (fst PACIFIC_X_INDICES) (snd PACIFIC_X_INDICES).
End Regional.

Arguments Dataset A : clear implicits.

(** ** The program over the interpreter's store

    Datasets are objects that the Python functions receive by reference, and
    [main] reads and writes the file system.  [world] holds the live dataset
    objects, the netCDF files and the directories; a computation maps a world
    to its outcome and the world it leaves behind.  An exception keeps the
    changes made before it was raised. *)

Module Store.
Section Program.
Context {A : Type}.
Context (axis_slice : N -> Z -> Z -> N * N).

Record world : Type :=
  { heap : gmap N (Dataset A);
    next_ref : N;
    files : gmap string (Dataset A);
    dirs : gset string }.

Definition M (X : Type) : Type := world -> result X * world.

Definition ret {X : Type} (x : X) : M X := fun w => (Ok x, w).

Definition raise {X : Type} (e : exception) : M X := fun w => (Raise e, w).

Definition lift {X : Type} (r : result X) : M X := fun w => (r, w).

Definition and_then {X Y : Type} (m : M X) (k : X -> M Y) : M Y := fun w =>
  match m w with
  | (Ok x, w') => k x w'
  | (Raise e, w') => (Raise e, w')
  end.

(** *** Reading a dataset object *)

Definition deref (ref : N) : M (Dataset A) := fun w =>
  match heap w !! ref with
  | Some ds => (Ok ds, w)
  | None => (Raise (KeyError "dangling reference"), w)
  end.

(** [var in pcf] *)
Definition contains (pcf : N) (var : string) : M bool :=
  and_then (deref pcf) (fun ds =>
  ret (bool_decide (is_Some (variables ds !! var)))).

(** [pcf[var]] *)
Definition getitem (pcf : N) (var : string) : M (ndarray A) :=
  and_then (deref pcf) (fun ds =>
  match variables ds !! var with
  | Some field => ret field
  | None => raise (KeyError var)
  end).

(** *** Creating objects, files and directories *)

Definition alloc (ds : Dataset A) : M N := fun w =>
  (Ok (next_ref w),
   {| heap := <[next_ref w := ds]> (heap w);
      next_ref := next_ref w + 1;
      files := files w;
      dirs := dirs w |}).

(** *** The squeezed parent grid

    [.squeeze()] drops every dimension of length one.  The selector and the
    assembler work on datasets that have both dimensions; a parent grid that
    has lost one only gives [main] the error of the first operation that
    names the missing dimension.  A [squeezed] value is the reference to the
    object together with the dimension it has lost, if any; the parent file
    carries no coordinate labels for y and x, so that a squeezed dimension is
    gone altogether. *)
Inductive squeezed : Type :=
| Kept (pcf : N)
| Lost_x (pcf : N)
| Lost_y (pcf : N).

(** [xr.open_dataset(path).squeeze()] *)
Definition open_dataset (path : string) : M squeezed := fun w =>
  match files w !! path with
  | Some ds =>
      and_then (alloc ds) (fun pcf =>
      ret (if (dim_x ds =? 1)%N then Lost_x pcf
           else if (dim_y ds =? 1)%N then Lost_y pcf
           else Kept pcf)) w
  | None => (Raise (FileNotFoundError path), w)
  end.

(** [pcf['x'].size] *)
Definition x_size_of (pcf : squeezed) : M N :=
  match pcf with
  | Lost_x _ => raise (KeyError "x")
  | Kept r | Lost_y r => and_then (deref r) (fun ds => ret (dim_x ds))
  end.

Definition os_path_exists (path : string) : M bool := fun w =>
  (Ok (bool_decide (path ∈ dirs w) || bool_decide (is_Some (files w !! path))),
   w).

Definition os_makedirs (path : string) : M unit := fun w =>
  (Ok tt,
   {| heap := heap w; next_ref := next_ref w; files := files w;
      dirs := {[path]} ∪ dirs w |}).

(** [ds.to_netcdf(f'{dir}/{name}')]: the file is created in, or replaced
    in, the directory [dir]; the write fails when [dir] is not an existing
    directory, as when it is a regular file. *)
Definition to_netcdf (ds : N) (dir name : string) : M unit :=
  and_then (deref ds) (fun d w =>
  if bool_decide (dir ∈ dirs w)
     && negb (bool_decide (is_Some (files w !! dir)))
  then
    (Ok tt,
     {| heap := heap w; next_ref := next_ref w;
        files := <[dir +:+ "/" +:+ name := d]> (files w); dirs := dirs w |})
  else (Raise (OSError (dir +:+ "/" +:+ name)), w)).

(** *** The three functions of the source *)

Definition grid_selector (pcf : N) (var : string) (e : extent)
    (pac_patch : bool) : M (ndarray A) :=
  and_then (contains pcf var) (fun present =>
  if negb present then raise (ValueError (not_found var))
  else if pac_patch then
    if decide (var ∈ T_VARS) then
      and_then (getitem pcf var) (fun field =>
      ret (np_flip (sel axis_slice field
                        (y_min e) (y_max e) (x_min e) (x_max e))))
    else if decide (var ∈ U_VARS) then
      and_then (getitem pcf var) (fun field =>
      ret (np_flip (sel axis_slice field
                        (y_min e) (y_max e) (x_min e - 1) (x_max e - 1))))
    else if decide (var ∈ V_VARS) then
      and_then (getitem pcf var) (fun field =>
      ret (np_flip (sel axis_slice field
                        (y_min e - 1) (y_max e - 1) (x_min e) (x_max e))))
    else if decide (var ∈ F_VARS) then
      and_then (getitem pcf var) (fun field =>
      ret (np_flip (sel axis_slice field
                        (y_min e - 1) (y_max e - 1)
                        (x_min e - 1) (x_max e - 1))))
    else raise (UnboundLocalError "grid_array")
  else
    and_then (getitem pcf var) (fun field =>
    ret (sel axis_slice field (y_min e) (y_max e) (x_min e) (x_max e)))).

Fixpoint fill_data_vars (pcf : N) (e : extent) (pac_patch : bool)
    (vars : list string) (data_vars : gmap string (ndarray A))
    : M (gmap string (ndarray A)) :=
  match vars with
  | [] => ret data_vars
  | var :: rest =>
      and_then (grid_selector pcf var e pac_patch) (fun a =>
      fill_data_vars pcf e pac_patch rest (<[var := a]> data_vars))
  end.

Definition create_dataset (pcf : N) (e : extent) (pac_patch : bool) : M N :=
  and_then (fill_data_vars pcf e pac_patch ALL_VARS ∅) (fun data_vars =>
  and_then (lift (xr_Dataset data_vars)) alloc).

(** [xr.concat([atl_dataset, pac_dataset], dim='y')] *)
Definition concat (atl_dataset pac_dataset : N) : M N :=
  and_then (deref atl_dataset) (fun atl =>
  and_then (deref pac_dataset) (fun pac =>
  and_then (lift (xr_concat [atl; pac])) alloc)).

(** [create_dataset(pcf, extent, pac_patch)] as [main] calls it on the
    squeezed parent grid.  When a dimension is lost, the first pass of the
    loop ends the call: the selector tests the name and then raises
    [KeyError] from [.sel(y=..., x=...)]. *)
Definition create_dataset_squeezed (pcf : squeezed) (e : extent)
    (pac_patch : bool) : M N :=
  match pcf with
  | Kept r => create_dataset r e pac_patch
  | Lost_x r | Lost_y r =>
      match ALL_VARS with
      | [] => create_dataset r e pac_patch
      | var :: _ =>
          and_then (contains r var) (fun present =>
          if negb present then raise (ValueError (not_found var))
          else raise (KeyError match pcf with Lost_x _ => "x" | _ => "y" end))
      end
  end.

Definition target_file : string := TARGET_PATH +:+ "/" +:+ TARGET_NAME.

Definition main : M unit :=
  and_then (open_dataset PARENT_FILE) (fun pcf =>
  and_then (x_size_of pcf) (fun x_size =>
  and_then (create_dataset_squeezed pcf (atl_extent x_size) false)
    (fun atl_dataset =>
  and_then (create_dataset_squeezed pcf pac_extent true) (fun pac_dataset =>
  and_then (concat atl_dataset pac_dataset) (fun whole_dataset =>
  and_then (os_path_exists TARGET_PATH) (fun there =>
  and_then (if negb there then os_makedirs TARGET_PATH else ret tt) (fun _ =>
  to_netcdf whole_dataset TARGET_PATH TARGET_NAME))))))).
End Program.
End Store.

(** ** Sample grids *)

(** The deterministic pattern [row * 100000 + col]. *)
Definition pattern_field (ny nx : N) : ndarray Z :=
  {| nrows := ny; ncols := nx;
     cell := fun i j => Z.of_N i * 100000 + Z.of_N j |}.

(** A parent grid with every configured coordinate field and one more
    variable, [tmask], that is in none of the four lists. *)
Definition sample_grid (ny nx : N) : Dataset Z :=
  {| dim_y := ny; dim_x := nx;
     variables :=
       list_to_map (map (fun v => (v, pattern_field ny nx))
                        ("tmask" :: ALL_VARS)) |}.

(** The same grid without [e2f]. *)
Definition incomplete_grid (ny nx : N) : Dataset Z :=
  {| dim_y := ny; dim_x := nx;
     variables := delete "e2f" (variables (sample_grid ny nx)) |}.

(** The same grid without [tmask]: the configured fields alone, over the
    same two dimensions. *)
Definition unmasked_grid (ny nx : N) : Dataset Z :=
  {| dim_y := ny; dim_x := nx;
     variables := delete "tmask" (variables (sample_grid ny nx)) |}.

Definition sample_world (ny nx : N) : Store.world :=
  {| Store.heap := ∅; Store.next_ref := 0;
     Store.files := {[ PARENT_FILE := sample_grid ny nx ]};
     Store.dirs := ∅ |}.

(** Two worlds in which reference 0 is the same parent grid; they differ in
    the other objects, the files and the directories. *)
Definition loaded_world : Store.world :=
  {| Store.heap := {[ 0%N := sample_grid 6 6 ]}; Store.next_ref := 1;
     Store.files := ∅; Store.dirs := ∅ |}.

Definition busy_world : Store.world :=
  {| Store.heap := {[ 0%N := sample_grid 6 6; 1%N := incomplete_grid 3 3 ]};
     Store.next_ref := 2;
     Store.files := {[ PARENT_FILE := sample_grid 9 9 ]};
     Store.dirs := {[ TARGET_PATH ]} |}.

(** ** Notions used to state the behaviour of the program *)

(** The dataset that [main] hands to [to_netcdf]: the Atlantic and the
    Pacific regional grid of the parent grid, concatenated in that order. *)
Definition stitched {A : Type} (axis_slice : N -> Z -> Z -> N * N)
    (pcf : Dataset A) : result (Dataset A) :=
  atl ← create_dataset axis_slice pcf (atl_extent (dim_x pcf)) false;
  pac ← create_dataset axis_slice pcf pac_extent true;
  xr_concat [atl; pac].

(** No object lives at or above the next reference to be handed out. *)
Definition heap_fresh {A : Type} (w : Store.world (A := A)) : Prop :=
  forall r, (Store.next_ref w <= r)%N -> Store.heap w !! r = None.

(** A slicing rule never selects positions outside the axis. *)
Definition in_axis (axis_slice : N -> Z -> Z -> N * N) : Prop :=
  forall n lo hi,
    (fst (axis_slice n lo hi) + snd (axis_slice n lo hi) <= n)%N.

(** ** Membership in the four lists *)

Ltac list_cases H :=
  repeat (apply elem_of_cons in H as [-> | H]); [.. | by apply elem_of_nil in H].

Ltac decide_closed := apply (bool_decide_unpack _); vm_compute; exact I.

Lemma family_vars_disjoint (f g : family) (var : string) :
  var ∈ family_vars f -> var ∈ family_vars g -> f = g.
Proof.
  intros Hf Hg.
  destruct f; simpl in Hf; unfold T_VARS, U_VARS, V_VARS, F_VARS in Hf;
    list_cases Hf;
    destruct g; try reflexivity; exfalso;
    apply (bool_decide_pack _) in Hg; vm_compute in Hg; exact Hg.
Qed.

Lemma family_vars_all (f : family) (var : string) :
  var ∈ family_vars f -> var ∈ ALL_VARS.
Proof.
  unfold ALL_VARS. rewrite !elem_of_app. destruct f; simpl; tauto.
Qed.

Lemma all_vars_family (var : string) :
  var ∈ ALL_VARS -> exists f, var ∈ family_vars f.
Proof.
  unfold ALL_VARS. rewrite !elem_of_app.
  intros [H | [H | [H | H]]];
    [exists Center | exists EastFace | exists NorthFace | exists Corner];
    exact H.
Qed.

Lemma ALL_VARS_NoDup : NoDup ALL_VARS.
Proof. decide_closed. Qed.

Lemma ALL_VARS_length : length ALL_VARS = 18%nat.
Proof. reflexivity. Qed.

(** ** The selector *)

Section SelectorFacts.
Context {A : Type}.
Context (axis_slice : N -> Z -> Z -> N * N).

Lemma sel_shape (field : ndarray A) (y0 y1 x0 x1 : Z) :
  shape (sel axis_slice field y0 y1 x0 x1)
  = (snd (axis_slice (nrows field) y0 y1), snd (axis_slice (ncols field) x0 x1)).
Proof.
  unfold sel.
  destruct (axis_slice (nrows field) y0 y1), (axis_slice (ncols field) x0 x1).
  reflexivity.
Qed.

Lemma sel_cell (field : ndarray A) (y0 y1 x0 x1 : Z) (i j : N) :
  cell (sel axis_slice field y0 y1 x0 x1) i j
  = cell field (fst (axis_slice (nrows field) y0 y1) + i)%N
               (fst (axis_slice (ncols field) x0 x1) + j)%N.
Proof.
  unfold sel.
  destruct (axis_slice (nrows field) y0 y1), (axis_slice (ncols field) x0 x1).
  reflexivity.
Qed.

Lemma grid_selector_absent (pcf : Dataset A) var e pac_patch :
  variables pcf !! var = None ->
  grid_selector axis_slice pcf var e pac_patch = Raise (ValueError (not_found var)).
Proof. intros H. unfold grid_selector. rewrite H. reflexivity. Qed.

Lemma grid_selector_atlantic (pcf : Dataset A) var field e :
  variables pcf !! var = Some field ->
  grid_selector axis_slice pcf var e false = Ok (sel_extent axis_slice field e).
Proof. intros H. unfold grid_selector. rewrite H. reflexivity. Qed.

Lemma grid_selector_pacific (pcf : Dataset A) var field e f :
  variables pcf !! var = Some field ->
  var ∈ family_vars f ->
  grid_selector axis_slice pcf var e true
  = Ok (np_flip (sel_extent axis_slice field (family_window f e))).
Proof.
  intros H Hf. unfold grid_selector. rewrite H.
  repeat case_decide.
  all: try (rewrite (family_vars_disjoint f Center var) by assumption;
            reflexivity).
  all: try (rewrite (family_vars_disjoint f EastFace var) by assumption;
            reflexivity).
  all: try (rewrite (family_vars_disjoint f NorthFace var) by assumption;
            reflexivity).
  all: try (rewrite (family_vars_disjoint f Corner var) by assumption;
            reflexivity).
  destruct f; contradiction.
Qed.

Lemma grid_selector_unbound (pcf : Dataset A) var field e :
  variables pcf !! var = Some field ->
  var ∉ ALL_VARS ->
  grid_selector axis_slice pcf var e true = Raise (UnboundLocalError "grid_array").
Proof.
  intros H Hn. unfold grid_selector. rewrite H.
  unfold ALL_VARS in Hn. rewrite !elem_of_app in Hn.
  repeat case_decide; try reflexivity; exfalso; tauto.
Qed.

Lemma grid_selector_outcome (pcf : Dataset A) var e pac_patch :
  match variables pcf !! var with
  | None =>
      grid_selector axis_slice pcf var e pac_patch
      = Raise (ValueError (not_found var))
  | Some field =>
      is_ok (grid_selector axis_slice pcf var e pac_patch)
      \/ grid_selector axis_slice pcf var e pac_patch
         = Raise (UnboundLocalError "grid_array")
  end.
Proof.
  destruct (variables pcf !! var) as [field |] eqn:H.
  - destruct pac_patch.
    + destruct (decide (var ∈ ALL_VARS)) as [Hin | Hout].
      * destruct (all_vars_family var Hin) as [f Hf]. left.
        exists (np_flip (sel_extent axis_slice field (family_window f e))).
        apply grid_selector_pacific; assumption.
      * right. apply (grid_selector_unbound pcf var field); assumption.
    + left. exists (sel_extent axis_slice field e).
      apply grid_selector_atlantic. assumption.
  - apply grid_selector_absent. assumption.
Qed.
End SelectorFacts.

(** ** Arrays written out as lists of rows *)

Lemma seq_from (s len : nat) :
  seq s len = map (fun i => (s + i)%nat) (seq 0 len).
Proof.
  revert s. induction len as [| len IH]; intros s; [reflexivity |].
  cbn [seq map]. f_equal; [lia |].
  rewrite <- (seq_shift len 0), map_map, (IH (S s)).
  apply map_ext. intros i. lia.
Qed.

Lemma rev_seq_0 (k : nat) :
  rev (seq 0 k) = map (fun i => (k - 1 - i)%nat) (seq 0 k).
Proof.
  induction k as [| k IH]; [reflexivity |].
  rewrite seq_S at 1. rewrite rev_app_distr. cbn [rev app plus].
  cbn [seq map]. f_equal; [lia |].
  rewrite IH, <- (seq_shift k 0), map_map.
  apply map_ext. intros i. lia.
Qed.

Lemma N_range_spec (n i : N) : In i (N_range n) <-> (i < n)%N.
Proof.
  unfold N_range. rewrite in_map_iff. split.
  - intros (k & <- & Hk). apply in_seq in Hk. lia.
  - intros Hi. exists (N.to_nat i). split; [lia |]. apply in_seq. lia.
Qed.

Lemma N_range_rev (n : N) :
  rev (N_range n) = map (fun i => (n - 1 - i)%N) (N_range n).
Proof.
  unfold N_range. rewrite <- map_rev, rev_seq_0, !map_map.
  apply map_ext_in. intros i Hi. apply in_seq in Hi. lia.
Qed.

Lemma N_range_app (n m : N) :
  N_range (n + m) = N_range n ++ map (fun i => (n + i)%N) (N_range m).
Proof.
  unfold N_range.
  replace (N.to_nat (n + m)) with (N.to_nat n + N.to_nat m)%nat by lia.
  rewrite seq_app, map_app. f_equal. cbn [plus].
  rewrite (seq_from (N.to_nat n)), !map_map.
  apply map_ext. intros i. lia.
Qed.

Section ArrayFacts.
Context {A : Type}.

Lemma np_flip_shape (a : ndarray A) : shape (np_flip a) = shape a.
Proof. reflexivity. Qed.

Lemma np_flip_cell (a : ndarray A) (i j : N) :
  cell (np_flip a) i j = cell a (nrows a - 1 - i)%N (ncols a - 1 - j)%N.
Proof. reflexivity. Qed.

Lemma to_lists_np_flip (a : ndarray A) :
  to_lists (np_flip a) = rev (map (@rev A) (to_lists a)).
Proof.
  unfold to_lists. cbn [np_flip nrows ncols cell].
  rewrite map_map, <- map_rev, N_range_rev, map_map.
  apply map_ext. intros i.
  rewrite <- map_rev, N_range_rev, map_map. reflexivity.
Qed.

Lemma to_lists_flip_rows (a : ndarray A) :
  to_lists (flip_rows a) = rev (to_lists a).
Proof.
  unfold to_lists. cbn [flip_rows nrows ncols cell].
  rewrite <- map_rev, N_range_rev, map_map. reflexivity.
Qed.

Lemma to_lists_flip_cols (a : ndarray A) :
  to_lists (flip_cols a) = map (@rev A) (to_lists a).
Proof.
  unfold to_lists. cbn [flip_cols nrows ncols cell].
  rewrite map_map. apply map_ext. intros i.
  rewrite <- map_rev, N_range_rev, map_map. reflexivity.
Qed.

Lemma to_lists_vstack (a b : ndarray A) :
  ncols b = ncols a ->
  to_lists (vstack a b) = to_lists a ++ to_lists b.
Proof.
  intros Hc. unfold to_lists. cbn [vstack nrows ncols cell].
  rewrite N_range_app, map_app, map_map, Hc. f_equal.
  - apply map_ext_in. intros i Hi. apply N_range_spec in Hi.
    apply N.ltb_lt in Hi. rewrite Hi. reflexivity.
  - apply map_ext. intros i.
    replace (nrows a + i <? nrows a)%N with false
      by (symmetry; apply N.ltb_ge; lia).
    replace (nrows a + i - nrows a)%N with i by lia. reflexivity.
Qed.

Lemma vstack_upper (a b : ndarray A) (i j : N) :
  (i < nrows a)%N -> cell (vstack a b) i j = cell a i j.
Proof.
  intros Hi. cbn [vstack cell]. apply N.ltb_lt in Hi. rewrite Hi. reflexivity.
Qed.

Lemma vstack_lower (a b : ndarray A) (i j : N) :
  (nrows a <= i)%N -> cell (vstack a b) i j = cell b (i - nrows a)%N j.
Proof.
  intros Hi. cbn [vstack cell]. apply N.ltb_ge in Hi. rewrite Hi. reflexivity.
Qed.

Lemma shape_eqb_eq (s t : N * N) : shape_eqb s t = true <-> s = t.
Proof.
  destruct s as [s1 s2], t as [t1 t2]. unfold shape_eqb. cbn [fst snd].
  rewrite andb_true_iff, !N.eqb_eq. split.
  - intros [-> ->]. reflexivity.
  - intros [= -> ->]. split; reflexivity.
Qed.
End ArrayFacts.

(** ** The assembler *)

Section AssemblerFacts.
Context {A : Type}.
Context (axis_slice : N -> Z -> Z -> N * N).

Lemma bind_ok {X Y : Type} (r : result X) (k : X -> result Y) (y : Y) :
  (x ← r; k x) = Ok y -> exists x, r = Ok x /\ k x = Ok y.
Proof. destruct r as [x | err]; [eauto | discriminate]. Qed.

Lemma fill_data_vars_ok (pcf : Dataset A) e pac_patch vars acc dv :
  fill_data_vars axis_slice pcf e pac_patch vars acc = Ok dv ->
  (forall v, v ∈ vars ->
     exists a, grid_selector axis_slice pcf v e pac_patch = Ok a
               /\ dv !! v = Some a)
  /\ (forall v, v ∉ vars -> dv !! v = acc !! v).
Proof.
  revert acc. induction vars as [| var rest IH]; intros acc Hfill.
  - injection Hfill as <-. split; [| reflexivity].
    intros v Hv. by apply elem_of_nil in Hv.
  - cbn [fill_data_vars] in Hfill.
    apply bind_ok in Hfill as (a & Ha & Hrest).
    destruct (IH _ Hrest) as [Hin Hout]. split.
    + intros v Hv. destruct (decide (v ∈ rest)) as [Hr | Hr].
      * apply Hin, Hr.
      * apply elem_of_cons in Hv as [-> | Hv]; [| contradiction].
        exists a. split; [exact Ha |].
        rewrite (Hout _ Hr). apply lookup_insert_eq.
    + intros v Hv. apply not_elem_of_cons in Hv as [Hne Hr].
      rewrite (Hout _ Hr). apply lookup_insert_ne. congruence.
Qed.

Lemma fill_data_vars_first_failure (pcf : Dataset A) e pac_patch
    pre v post acc err :
  (forall u, u ∈ pre -> is_ok (grid_selector axis_slice pcf u e pac_patch)) ->
  grid_selector axis_slice pcf v e pac_patch = Raise err ->
  fill_data_vars axis_slice pcf e pac_patch (pre ++ v :: post) acc = Raise err.
Proof.
  revert acc. induction pre as [| u pre IH]; intros acc Hpre Hv.
  - cbn [app fill_data_vars]. rewrite Hv. reflexivity.
  - cbn [app fill_data_vars].
    destruct (Hpre u) as [a Ha]; [apply elem_of_cons; by left |].
    rewrite Ha. cbn. apply IH; [| exact Hv].
    intros w Hw. apply Hpre, elem_of_cons. by right.
Qed.

(** Either every selection succeeds and the dictionary is complete, or the
    loop stops at the first name whose selection raises. *)
Lemma fill_data_vars_outcome (pcf : Dataset A) e pac_patch vars acc :
  (exists dv, fill_data_vars axis_slice pcf e pac_patch vars acc = Ok dv)
  \/ (exists pre v post err,
        vars = pre ++ v :: post
        /\ (forall u, u ∈ pre ->
              is_ok (grid_selector axis_slice pcf u e pac_patch))
        /\ grid_selector axis_slice pcf v e pac_patch = Raise err
        /\ fill_data_vars axis_slice pcf e pac_patch vars acc = Raise err).
Proof.
  revert acc. induction vars as [| var rest IH]; intros acc.
  - left. exists acc. reflexivity.
  - destruct (grid_selector axis_slice pcf var e pac_patch) as [a | err] eqn:Ha.
    + destruct (IH (<[var := a]> acc))
        as [[dv Hdv] | (pre & v & post & err & -> & Hpre & Hv & Hfill)].
      * left. exists dv. cbn [fill_data_vars]. rewrite Ha. exact Hdv.
      * right. exists (var :: pre), v, post, err. repeat split; try assumption.
        -- intros u Hu. apply elem_of_cons in Hu as [-> | Hu].
           ++ exists a. exact Ha.
           ++ apply Hpre, Hu.
        -- cbn [fill_data_vars]. rewrite Ha. exact Hfill.
    + right. exists [], var, rest, err. repeat split; try assumption.
      * intros u Hu. by apply elem_of_nil in Hu.
      * cbn [fill_data_vars]. rewrite Ha. reflexivity.
Qed.

Lemma xr_Dataset_ok (dv : gmap string (ndarray A)) (d : Dataset A) :
  xr_Dataset dv = Ok d ->
  variables d = dv
  /\ forall v a, dv !! v = Some a -> shape a = (dim_y d, dim_x d).
Proof.
  unfold xr_Dataset.
  destruct (map_to_list dv) as [| [k0 a0] l] eqn:Hl.
  - intros [= <-]. split; [reflexivity |].
    apply map_to_list_empty_iff in Hl. subst dv.
    intros v a Hv. by rewrite lookup_empty in Hv.
  - destruct (forallb _ _) eqn:Hall; [| discriminate].
    intros [= <-]. split; [reflexivity |]. cbn [dim_y dim_x].
    intros v a Hv. rewrite forallb_forall in Hall.
    apply elem_of_map_to_list in Hv. rewrite Hl in Hv.
    apply list_elem_of_In in Hv. apply Hall in Hv.
    apply shape_eqb_eq in Hv. exact Hv.
Qed.

Lemma xr_Dataset_uniform (dv : gmap string (ndarray A)) (s : N * N) :
  (forall v a, dv !! v = Some a -> shape a = s) ->
  is_ok (xr_Dataset dv).
Proof.
  intros Hs. unfold xr_Dataset.
  destruct (map_to_list dv) as [| [k0 a0] l] eqn:Hl; [eexists; reflexivity |].
  assert (Hall : forallb (fun kv => shape_eqb (shape (snd kv)) (shape a0))
                         ((k0, a0) :: l) = true).
  { apply forallb_forall. intros [k a] Hk. cbn [snd].
    apply shape_eqb_eq.
    assert (Ha0 : dv !! k0 = Some a0).
    { apply elem_of_map_to_list. rewrite Hl. apply elem_of_cons. by left. }
    assert (Ha : dv !! k = Some a).
    { apply elem_of_map_to_list. rewrite Hl. apply list_elem_of_In, Hk. }
    rewrite (Hs _ _ Ha), (Hs _ _ Ha0). reflexivity. }
  rewrite Hall. eexists; reflexivity.
Qed.

Lemma xr_Dataset_conflict (dv : gmap string (ndarray A)) (u v : string)
    (a b : ndarray A) :
  dv !! u = Some a -> dv !! v = Some b -> shape a <> shape b ->
  xr_Dataset dv = Raise (ValueError "conflicting sizes for dimension").
Proof.
  intros Hu Hv Hne.
  destruct (xr_Dataset dv) as [d | err] eqn:Hd.
  - apply xr_Dataset_ok in Hd as [_ Hs]. exfalso. apply Hne.
    rewrite (Hs _ _ Hu), (Hs _ _ Hv). reflexivity.
  - revert Hd. unfold xr_Dataset.
    destruct (map_to_list dv) as [| [k0 a0] l]; [discriminate |].
    destruct (forallb _ _); [discriminate |]. intros [= <-]. reflexivity.
Qed.

Lemma create_dataset_ok (pcf : Dataset A) e pac_patch (d : Dataset A) :
  create_dataset axis_slice pcf e pac_patch = Ok d ->
  (forall v, v ∈ ALL_VARS ->
     exists a, grid_selector axis_slice pcf v e pac_patch = Ok a
               /\ variables d !! v = Some a)
  /\ (forall v, v ∉ ALL_VARS -> variables d !! v = None)
  /\ (forall v a, variables d !! v = Some a -> shape a = (dim_y d, dim_x d)).
Proof.
  unfold create_dataset. intros Hd.
  apply bind_ok in Hd as (dv & Hfill & Hd).
  apply fill_data_vars_ok in Hfill as [Hin Hout].
  apply xr_Dataset_ok in Hd as [-> Hshape].
  repeat split; assumption.
Qed.

Lemma create_dataset_names (pcf : Dataset A) e pac_patch (d : Dataset A) :
  create_dataset axis_slice pcf e pac_patch = Ok d ->
  dom (variables d) = list_to_set ALL_VARS
  /\ size (variables d) = 18%nat.
Proof.
  intros Hd. apply create_dataset_ok in Hd as (Hin & Hout & _).
  assert (Hdom : dom (variables d) = list_to_set (C := gset string) ALL_VARS).
  { apply set_eq. intros v. rewrite elem_of_dom, elem_of_list_to_set. split.
    - intros [a Ha]. destruct (decide (v ∈ ALL_VARS)) as [Hv | Hv]; [exact Hv |].
      rewrite (Hout _ Hv) in Ha. discriminate.
    - intros Hv. destruct (Hin _ Hv) as (a & _ & Ha). exists a. exact Ha. }
  split; [exact Hdom |].
  rewrite <- size_dom, Hdom, size_list_to_set by apply ALL_VARS_NoDup.
  reflexivity.
Qed.

Lemma create_dataset_raise (pcf : Dataset A) e pac_patch pre v post err :
  ALL_VARS = pre ++ v :: post ->
  (forall u, u ∈ pre -> is_ok (grid_selector axis_slice pcf u e pac_patch)) ->
  grid_selector axis_slice pcf v e pac_patch = Raise err ->
  create_dataset axis_slice pcf e pac_patch = Raise err.
Proof.
  intros Hsplit Hpre Hv. unfold create_dataset. rewrite Hsplit.
  rewrite (fill_data_vars_first_failure pcf e pac_patch pre v post ∅ err)
    by assumption.
  reflexivity.
Qed.
End AssemblerFacts.

Section AssemblerTotal.
Context {A : Type}.
Context (axis_slice : N -> Z -> Z -> N * N).

Lemma family_window_shape (pcf : Dataset A) (field : ndarray A) e f :
  shape field = (dim_y pcf, dim_x pcf) ->
  shift_stable axis_slice (dim_y pcf) (y_min e) (y_max e) ->
  shift_stable axis_slice (dim_x pcf) (x_min e) (x_max e) ->
  shape (sel_extent axis_slice field (family_window f e))
  = shape (sel_extent axis_slice field e).
Proof.
  intros [= Hr Hc] Hy Hx. unfold sel_extent, shift_stable in *.
  rewrite !sel_shape, Hr, Hc.
  destruct f; cbn [family_window y_min y_max x_min x_max];
    rewrite ?Hy, ?Hx; reflexivity.
Qed.

Lemma create_dataset_total (pcf : Dataset A) e pac_patch :
  complete pcf ->
  uniform pcf ->
  (pac_patch = true ->
     shift_stable axis_slice (dim_y pcf) (y_min e) (y_max e)
     /\ shift_stable axis_slice (dim_x pcf) (x_min e) (x_max e)) ->
  is_ok (create_dataset axis_slice pcf e pac_patch).
Proof.
  intros Hcomplete Huniform Hshift.
  assert (Hsel : forall v, v ∈ ALL_VARS ->
            exists field a,
              variables pcf !! v = Some field
              /\ grid_selector axis_slice pcf v e pac_patch = Ok a
              /\ shape a = shape (sel_extent axis_slice field e)).
  { intros v Hv. destruct (Hcomplete v Hv) as [field Hfield].
    exists field. destruct pac_patch.
    - destruct (all_vars_family v Hv) as [f Hf].
      exists (np_flip (sel_extent axis_slice field (family_window f e))).
      split; [exact Hfield |]. split.
      + apply grid_selector_pacific; assumption.
      + rewrite np_flip_shape. destruct Hshift as [Hy Hx]; [reflexivity |].
        apply (family_window_shape pcf); try assumption.
        apply (Huniform v), Hfield.
    - exists (sel_extent axis_slice field e).
      split; [exact Hfield |]. split; [| reflexivity].
      apply grid_selector_atlantic. exact Hfield. }
  unfold create_dataset.
  destruct (fill_data_vars_outcome axis_slice pcf e pac_patch ALL_VARS ∅)
    as [[dv Hdv] | (pre & v & post & err & Hsplit & _ & Hv & _)].
  - rewrite Hdv. cbn.
    apply (xr_Dataset_uniform dv
             (snd (axis_slice (dim_y pcf) (y_min e) (y_max e)),
              snd (axis_slice (dim_x pcf) (x_min e) (x_max e)))).
    apply fill_data_vars_ok in Hdv as [Hin Hout].
    intros v a Ha. destruct (decide (v ∈ ALL_VARS)) as [Hv | Hv].
    + destruct (Hin v Hv) as (a' & Hsel' & Ha').
      destruct (Hsel v Hv) as (field & a'' & Hfield & Hsel'' & Hshape).
      assert (a = a'') by congruence. subst a''.
      rewrite Hshape. unfold sel_extent. rewrite sel_shape.
      pose proof (Huniform v field Hfield) as [= -> ->]. reflexivity.
    + rewrite (Hout v Hv), lookup_empty in Ha. discriminate.
  - exfalso. destruct (Hsel v) as (field & a & _ & Ha & _).
    + rewrite Hsplit. apply elem_of_app. right. apply elem_of_cons. by left.
    + congruence.
Qed.
End AssemblerTotal.

(** ** The program over the store *)

Section StoreFacts.
Context {A : Type}.
Context (axis_slice : N -> Z -> Z -> N * N).

Lemma store_grid_selector_run (w : Store.world) (pcf : N) (ds : Dataset A)
    var e pac_patch :
  Store.heap w !! pcf = Some ds ->
  Store.grid_selector axis_slice pcf var e pac_patch w
  = (grid_selector axis_slice ds var e pac_patch, w).
Proof.
  intros Hpcf.
  unfold Store.grid_selector, Store.contains, Store.getitem, Store.and_then,
    Store.deref, Store.ret, Store.raise, grid_selector.
  rewrite Hpcf.
  destruct (variables ds !! var) as [field |] eqn:Hvar.
  - rewrite bool_decide_true by eauto. cbn [negb].
    destruct pac_patch; repeat case_decide; rewrite ?Hpcf, ?Hvar; reflexivity.
  - rewrite bool_decide_false by (intros [? ?]; discriminate). reflexivity.
Qed.

Lemma store_grid_selector_dangling (w : Store.world (A := A)) (pcf : N)
    var e pac_patch :
  Store.heap w !! pcf = None ->
  Store.grid_selector axis_slice pcf var e pac_patch w
  = (Raise (KeyError "dangling reference"), w).
Proof.
  intros Hpcf.
  unfold Store.grid_selector, Store.contains, Store.and_then, Store.deref.
  rewrite Hpcf. reflexivity.
Qed.

Lemma store_fill_data_vars_run (w : Store.world) (pcf : N) (ds : Dataset A)
    e pac_patch vars acc :
  Store.heap w !! pcf = Some ds ->
  Store.fill_data_vars axis_slice pcf e pac_patch vars acc w
  = (fill_data_vars axis_slice ds e pac_patch vars acc, w).
Proof.
  intros Hpcf. revert acc. induction vars as [| var rest IH]; intros acc.
  - reflexivity.
  - cbn [Store.fill_data_vars fill_data_vars]. unfold Store.and_then.
    rewrite (store_grid_selector_run w pcf ds) by exact Hpcf.
    destruct (grid_selector axis_slice ds var e pac_patch) as [a | err].
    + apply IH.
    + reflexivity.
Qed.

Lemma store_create_dataset_run (w : Store.world) (pcf : N) (ds : Dataset A)
    e pac_patch :
  Store.heap w !! pcf = Some ds ->
  Store.create_dataset axis_slice pcf e pac_patch w
  = match create_dataset axis_slice ds e pac_patch with
    | Ok d => Store.alloc d w
    | Raise err => (Raise err, w)
    end.
Proof.
  intros Hpcf. unfold Store.create_dataset, create_dataset, Store.and_then.
  rewrite (store_fill_data_vars_run w pcf ds) by exact Hpcf.
  destruct (fill_data_vars axis_slice ds e pac_patch ALL_VARS ∅) as [dv | err];
    [| reflexivity].
  cbn. unfold Store.lift. destruct (xr_Dataset dv); reflexivity.
Qed.
End StoreFacts.

Section MainFacts.
Context {A : Type}.
Context (axis_slice : N -> Z -> Z -> N * N).

Lemma alloc_heap (w : Store.world) (d : Dataset A) :
  Store.alloc d w
  = (Ok (Store.next_ref w),
     {| Store.heap := <[Store.next_ref w := d]> (Store.heap w);
        Store.next_ref := Store.next_ref w + 1;
        Store.files := Store.files w;
        Store.dirs := Store.dirs w |}).
Proof. reflexivity. Qed.

Lemma main_missing_file (w : Store.world (A := A)) :
  Store.files w !! PARENT_FILE = None ->
  Store.main axis_slice w = (Raise (FileNotFoundError PARENT_FILE), w).
Proof.
  intros Hfile. unfold Store.main, Store.and_then at 1, Store.open_dataset.
  rewrite Hfile. reflexivity.
Qed.

Lemma stitched_cases (pcf : Dataset A) :
  stitched axis_slice pcf
  = match create_dataset axis_slice pcf (atl_extent (dim_x pcf)) false with
    | Raise err => Raise err
    | Ok atl =>
        match create_dataset axis_slice pcf pac_extent true with
        | Raise err => Raise err
        | Ok pac => concat_pair atl pac
        end
    end.
Proof.
  unfold stitched.
  destruct (create_dataset axis_slice pcf (atl_extent (dim_x pcf)) false);
    [| reflexivity].
  destruct (create_dataset axis_slice pcf pac_extent true); reflexivity.
Qed.

Lemma to_netcdf_run (w : Store.world) (ds : N) (d : Dataset A)
    (dir name : string) :
  Store.heap w !! ds = Some d ->
  Store.to_netcdf ds dir name w
  = if bool_decide (dir ∈ Store.dirs w)
       && negb (bool_decide (is_Some (Store.files w !! dir)))
    then
      (Ok tt,
       {| Store.heap := Store.heap w; Store.next_ref := Store.next_ref w;
          Store.files := <[dir +:+ "/" +:+ name := d]> (Store.files w);
          Store.dirs := Store.dirs w |})
    else (Raise (OSError (dir +:+ "/" +:+ name)), w).
Proof.
  intros Hds. unfold Store.to_netcdf, Store.and_then, Store.deref.
  rewrite Hds. reflexivity.
Qed.

(** The outcome of [main], the files and the directories it leaves, for a
    world whose parent file holds [pcf]: the errors of the squeezed axes
    first, then the outcome of the stitching, then the write. *)
Lemma main_outcome (w : Store.world) (pcf : Dataset A) :
  Store.files w !! PARENT_FILE = Some pcf ->
  if (dim_x pcf =? 1)%N then
    fst (Store.main axis_slice w) = Raise (KeyError "x")
    /\ Store.files (snd (Store.main axis_slice w)) = Store.files w
    /\ Store.dirs (snd (Store.main axis_slice w)) = Store.dirs w
  else if (dim_y pcf =? 1)%N then
    fst (Store.main axis_slice w)
    = (if bool_decide (is_Some (variables pcf !! "nav_lon"))
       then Raise (KeyError "y")
       else Raise (ValueError (not_found "nav_lon")))
    /\ Store.files (snd (Store.main axis_slice w)) = Store.files w
    /\ Store.dirs (snd (Store.main axis_slice w)) = Store.dirs w
  else
    match stitched axis_slice pcf with
    | Raise err =>
        fst (Store.main axis_slice w) = Raise err
        /\ Store.files (snd (Store.main axis_slice w)) = Store.files w
        /\ Store.dirs (snd (Store.main axis_slice w)) = Store.dirs w
    | Ok whole =>
        if bool_decide (is_Some (Store.files w !! TARGET_PATH)) then
          fst (Store.main axis_slice w) = Raise (OSError Store.target_file)
          /\ Store.files (snd (Store.main axis_slice w)) = Store.files w
          /\ Store.dirs (snd (Store.main axis_slice w)) = Store.dirs w
        else
          fst (Store.main axis_slice w) = Ok tt
          /\ Store.files (snd (Store.main axis_slice w))
             = <[Store.target_file := whole]> (Store.files w)
          /\ Store.dirs (snd (Store.main axis_slice w))
             = {[TARGET_PATH]} ∪ Store.dirs w
    end.
Proof.
  intros Hfile. rewrite stitched_cases.
  destruct (Store.main axis_slice w) as [res w'] eqn:Hmain. cbn [fst snd].
  revert Hmain. unfold Store.main.
  unfold Store.and_then at 1. unfold Store.open_dataset. rewrite Hfile.
  unfold Store.and_then at 1. rewrite alloc_heap. unfold Store.ret at 1.
  set (r := Store.next_ref w).
  set (w1 := {| Store.heap := <[r := pcf]> (Store.heap w) |}).
  assert (H1 : Store.heap w1 !! r = Some pcf) by apply lookup_insert_eq.
  destruct (dim_x pcf =? 1)%N.
  { unfold Store.and_then at 1. cbn [Store.x_size_of]. unfold Store.raise.
    intros [= <- <-]. repeat split. }
  destruct (dim_y pcf =? 1)%N.
  { unfold Store.and_then at 1. cbn [Store.x_size_of].
    unfold Store.and_then at 1. unfold Store.deref at 1. rewrite H1.
    cbn [Store.ret]. unfold Store.and_then at 1.
    unfold Store.create_dataset_squeezed at 1.
    change ALL_VARS with ("nav_lon" :: tl ALL_VARS). cbn iota.
    unfold Store.and_then at 1, Store.contains, Store.and_then at 1.
    unfold Store.deref at 1. rewrite H1. cbn [Store.ret].
    destruct (bool_decide (is_Some (variables pcf !! "nav_lon")));
      cbn [negb]; unfold Store.raise; intros [= <- <-]; repeat split. }
  unfold Store.and_then at 1. cbn [Store.x_size_of].
  unfold Store.and_then at 1. unfold Store.deref at 1. rewrite H1.
  cbn [Store.ret]. cbn [Store.create_dataset_squeezed].
  unfold Store.and_then at 1.
  rewrite (store_create_dataset_run axis_slice w1 r pcf) by exact H1.
  destruct (create_dataset axis_slice pcf (atl_extent (dim_x pcf)) false)
    as [atl | err]; [| intros [= <- <-]; repeat split].
  rewrite alloc_heap.
  set (w2 := {| Store.heap := <[Store.next_ref w1 := atl]> (Store.heap w1) |}).
  assert (H2 : Store.heap w2 !! r = Some pcf).
  { cbn. rewrite lookup_insert_ne by lia. apply lookup_insert_eq. }
  unfold Store.and_then at 1.
  rewrite (store_create_dataset_run axis_slice w2 r pcf) by exact H2.
  destruct (create_dataset axis_slice pcf pac_extent true)
    as [pac | err]; [| intros [= <- <-]; repeat split].
  rewrite alloc_heap.
  set (w3 := {| Store.heap := <[Store.next_ref w2 := pac]> (Store.heap w2) |}).
  assert (Hatl : Store.heap w3 !! Store.next_ref w1 = Some atl).
  { cbn. rewrite lookup_insert_ne by lia. apply lookup_insert_eq. }
  assert (Hpac : Store.heap w3 !! Store.next_ref w2 = Some pac)
    by apply lookup_insert_eq.
  unfold Store.and_then at 1. unfold Store.concat, Store.and_then at 1.
  unfold Store.deref at 1. rewrite Hatl.
  unfold Store.and_then at 1. unfold Store.deref at 1. rewrite Hpac.
  unfold Store.and_then at 1. unfold Store.lift.
  change (xr_concat [atl; pac]) with (concat_pair atl pac).
  destruct (concat_pair atl pac) as [whole | err];
    [| intros [= <- <-]; repeat split].
  rewrite alloc_heap.
  set (w4 := {| Store.heap := <[Store.next_ref w3 := whole]> (Store.heap w3) |}).
  assert (Hwhole : forall (fs : gmap string (Dataset A)) (ds : gset string),
            Store.heap {| Store.heap := Store.heap w4;
                          Store.next_ref := Store.next_ref w4;
                          Store.files := fs; Store.dirs := ds |}
              !! Store.next_ref w3 = Some whole)
    by (intros fs ds; apply lookup_insert_eq).
  unfold Store.and_then at 1. unfold Store.os_path_exists.
  change (Store.dirs w4) with (Store.dirs w).
  change (Store.files w4) with (Store.files w).
  destruct (bool_decide (is_Some (Store.files w !! TARGET_PATH))) eqn:Hisfile.
  - rewrite orb_true_r. cbn [negb]. unfold Store.and_then at 1, Store.ret.
    rewrite (to_netcdf_run w4 _ whole) by apply lookup_insert_eq.
    change (Store.dirs w4) with (Store.dirs w).
    change (Store.files w4) with (Store.files w).
    rewrite Hisfile. cbn [negb]. rewrite andb_false_r.
    intros [= <- <-]. repeat split.
  - rewrite orb_false_r.
    destruct (bool_decide (TARGET_PATH ∈ Store.dirs w)) eqn:Hisdir; cbn [negb].
    + unfold Store.and_then at 1, Store.ret.
      rewrite (to_netcdf_run w4 _ whole) by apply lookup_insert_eq.
      change (Store.dirs w4) with (Store.dirs w).
      change (Store.files w4) with (Store.files w).
      rewrite Hisfile, Hisdir. cbn [negb andb].
      intros [= <- <-].
      split; [reflexivity |]. split; [reflexivity |]. cbn [Store.dirs].
      apply bool_decide_eq_true in Hisdir.
      symmetry. apply subseteq_union_1_L, singleton_subseteq_l, Hisdir.
    + unfold Store.and_then at 1, Store.os_makedirs.
      rewrite (to_netcdf_run _ _ whole) by apply Hwhole.
      cbn [Store.dirs Store.files].
      change (Store.dirs w4) with (Store.dirs w).
      change (Store.files w4) with (Store.files w).
      rewrite Hisfile.
      rewrite bool_decide_true
        by (apply elem_of_union_l, elem_of_singleton; reflexivity).
      cbn [negb andb]. intros [= <- <-]. repeat split.
Qed.
End MainFacts.

(** ** Properties of the selector *)

Section SelectorClaims.
Context {A : Type}.
Context (axis_slice : N -> Z -> Z -> N * N).

Lemma sel_nrows (field : ndarray A) (y0 y1 x0 x1 : Z) :
  nrows (sel axis_slice field y0 y1 x0 x1)
  = snd (axis_slice (nrows field) y0 y1).
Proof. pose proof (sel_shape axis_slice field y0 y1 x0 x1) as [= H _]. exact H. Qed.

Lemma sel_ncols (field : ndarray A) (y0 y1 x0 x1 : Z) :
  ncols (sel axis_slice field y0 y1 x0 x1)
  = snd (axis_slice (ncols field) x0 x1).
Proof. pose proof (sel_shape axis_slice field y0 y1 x0 x1) as [= _ H]. exact H. Qed.

(** The Pacific selection of a listed field, entry by entry, in terms of
    the start and the length that the slicing rule gives on each axis. *)
Lemma grid_selector_pacific_cells (pcf : Dataset A) var field e f :
  variables pcf !! var = Some field ->
  var ∈ family_vars f ->
  exists r,
    grid_selector axis_slice pcf var e true = Ok r
    /\ shape r
       = (snd (axis_slice (nrows field) (y_min (family_window f e))
                          (y_max (family_window f e))),
          snd (axis_slice (ncols field) (x_min (family_window f e))
                          (x_max (family_window f e))))
    /\ forall i j,
         cell r i j
         = cell field
             (fst (axis_slice (nrows field) (y_min (family_window f e))
                              (y_max (family_window f e)))
              + (snd (axis_slice (nrows field) (y_min (family_window f e))
                                 (y_max (family_window f e))) - 1 - i))%N
             (fst (axis_slice (ncols field) (x_min (family_window f e))
                              (x_max (family_window f e)))
              + (snd (axis_slice (ncols field) (x_min (family_window f e))
                                 (x_max (family_window f e))) - 1 - j))%N.
Proof.
  intros Hvar Hf.
  exists (np_flip (sel_extent axis_slice field (family_window f e))).
  split; [apply grid_selector_pacific; assumption |].
  unfold sel_extent. split.
  - rewrite np_flip_shape. apply sel_shape.
  - intros i j. rewrite np_flip_cell, sel_cell, sel_nrows, sel_ncols.
    reflexivity.
Qed.

(** C1, amended: with the Pacific switch set, a field of the parent grid
    that belongs to one of the four families is cut with the window of its
    family: rows [e0:e1] and columns [e2:e3] for a Center field, the column
    bounds lowered by one for an EastFace field, the row bounds lowered by
    one for a NorthFace field, and both for a Corner field.  The result has
    the length of these two windows and holds the entries of the field at
    the rows and columns they select, in reversed order.  For an EastFace
    field and the extent (10, 20, 30, 40) the rows are cut at [10:20] and the
    columns at [29:39]; cut by position on a field that reaches that far,
    these are the rows 10 to 19 and the columns 29 to 38. *)
Theorem pacific_window_by_family (pcf : Dataset A) (var : string)
    (field : ndarray A) (e : extent) (f : family) :
  variables pcf !! var = Some field ->
  var ∈ family_vars f ->
  let rows := match f with
              | Center | EastFace => (y_min e, y_max e)
              | NorthFace | Corner => (y_min e - 1, y_max e - 1)
              end in
  let cols := match f with
              | Center | NorthFace => (x_min e, x_max e)
              | EastFace | Corner => (x_min e - 1, x_max e - 1)
              end in
  let ry := axis_slice (nrows field) (fst rows) (snd rows) in
  let cx := axis_slice (ncols field) (fst cols) (snd cols) in
  exists r,
    grid_selector axis_slice pcf var e true = Ok r
    /\ shape r = (snd ry, snd cx)
    /\ (forall i j,
          cell r i j
          = cell field (fst ry + (snd ry - 1 - i))%N (fst cx + (snd cx - 1 - j))%N)
    /\ (f = EastFace -> e = Extent 10 20 30 40 ->
        ry = axis_slice (nrows field) 10 20
        /\ cx = axis_slice (ncols field) 29 39)
    /\ (f = EastFace -> e = Extent 10 20 30 40 ->
        axis_slice = positional_slice ->
        (20 <= nrows field)%N -> (39 <= ncols field)%N ->
        shape r = (10%N, 10%N)
        /\ forall i j, (i < 10)%N -> (j < 10)%N ->
             cell r i j = cell field (19 - i)%N (38 - j)%N).
Proof.
  intros Hvar Hf rows cols ry cx.
  destruct (grid_selector_pacific_cells pcf var field e f Hvar Hf)
    as (r & Hr & Hshape & Hcell).
  assert (Hry : ry = axis_slice (nrows field) (y_min (family_window f e))
                                (y_max (family_window f e)))
    by (subst ry rows; destruct f; reflexivity).
  assert (Hcx : cx = axis_slice (ncols field) (x_min (family_window f e))
                                (x_max (family_window f e)))
    by (subst cx cols; destruct f; reflexivity).
  exists r. rewrite Hry, Hcx.
  split; [exact Hr |]. split; [exact Hshape |]. split; [exact Hcell |].
  split.
  - intros -> ->. split; reflexivity.
  - intros -> -> Hpos Hrows Hcols. clear Hry Hcx. subst axis_slice.
    cbn [family_window y_min y_max x_min x_max] in Hshape, Hcell.
    change (30 - 1) with 29 in Hshape, Hcell.
    change (40 - 1) with 39 in Hshape, Hcell.
    assert (Hy : positional_slice (nrows field) 10 20 = (10%N, 10%N)).
    { unfold positional_slice, clamp_index.
      change (10 <? 0) with false. change (20 <? 0) with false. cbn iota.
      f_equal; lia. }
    assert (Hx : positional_slice (ncols field) 29 39 = (29%N, 10%N)).
    { unfold positional_slice, clamp_index.
      change (29 <? 0) with false. change (39 <? 0) with false. cbn iota.
      f_equal; lia. }
    rewrite Hy, Hx in Hshape, Hcell. cbn [fst snd] in Hshape, Hcell.
    split; [exact Hshape |].
    intros i j Hi Hj. rewrite Hcell. f_equal; lia.
Qed.

(** C2, amended: for a field of the parent grid that belongs to one of the
    four families, the selector with the Pacific switch set returns an array
    with the shape of the family's window whose entry (i, j) is the entry
    (rows-1-i, cols-1-j) of the window; written out as rows it is the
    window with the order of the rows and the order of the entries in each
    row both reversed. *)
Theorem pacific_result_is_flipped_window (pcf : Dataset A) (var : string)
    (field : ndarray A) (e : extent) (f : family) :
  variables pcf !! var = Some field ->
  var ∈ family_vars f ->
  exists r,
    grid_selector axis_slice pcf var e true = Ok r
    /\ shape r = shape (sel_extent axis_slice field (family_window f e))
    /\ (forall i j,
          cell r i j
          = cell (sel_extent axis_slice field (family_window f e))
                 (nrows r - 1 - i)%N (ncols r - 1 - j)%N)
    /\ to_lists r
       = rev (map (@rev A)
                  (to_lists (sel_extent axis_slice field (family_window f e)))).
Proof.
  intros Hvar Hf.
  exists (np_flip (sel_extent axis_slice field (family_window f e))).
  split; [apply grid_selector_pacific; assumption |].
  split; [apply np_flip_shape |].
  split; [intros i j; reflexivity | apply to_lists_np_flip].
Qed.

(** C3, amended: with the Pacific switch off, the selector returns for
    every field of the parent grid, whatever its family, the sub-array of
    the field over the rows [e0:e1] and the columns [e2:e3] of the extent
    itself, with no bound shifted and no axis reversed.  How the two bounds
    are read is the parent grid's: on a grid without coordinate labels, as
    the program's parent file is, they are positions and the upper bound is
    left out; on a grid labelled 0, 1, ... they are labels and both bounds
    are included. *)
Theorem atlantic_result_is_window (pcf : Dataset A) (var : string)
    (field : ndarray A) (e : extent) :
  variables pcf !! var = Some field ->
  exists r,
    grid_selector axis_slice pcf var e false = Ok r
    /\ shape r
       = (snd (axis_slice (nrows field) (y_min e) (y_max e)),
          snd (axis_slice (ncols field) (x_min e) (x_max e)))
    /\ (forall i j,
          cell r i j
          = cell field
              (fst (axis_slice (nrows field) (y_min e) (y_max e)) + i)%N
              (fst (axis_slice (ncols field) (x_min e) (x_max e)) + j)%N)
    /\ (axis_slice = positional_slice ->
        0 <= y_min e <= y_max e -> y_max e <= Z.of_N (nrows field) ->
        0 <= x_min e <= x_max e -> x_max e <= Z.of_N (ncols field) ->
        shape r = (Z.to_N (y_max e - y_min e), Z.to_N (x_max e - x_min e))
        /\ forall i j,
             cell r i j
             = cell field (Z.to_N (y_min e) + i)%N (Z.to_N (x_min e) + j)%N)
    /\ (axis_slice = label_slice ->
        0 <= y_min e <= y_max e -> y_max e < Z.of_N (nrows field) ->
        0 <= x_min e <= x_max e -> x_max e < Z.of_N (ncols field) ->
        shape r
        = (Z.to_N (y_max e - y_min e + 1), Z.to_N (x_max e - x_min e + 1))
        /\ forall i j,
             cell r i j
             = cell field (Z.to_N (y_min e) + i)%N (Z.to_N (x_min e) + j)%N).
Proof.
  intros Hvar.
  exists (sel axis_slice field (y_min e) (y_max e) (x_min e) (x_max e)).
  split; [apply (grid_selector_atlantic axis_slice pcf var field e Hvar) |].
  split; [apply sel_shape |].
  split; [intros i j; apply sel_cell |].
  split.
  - intros -> Hy Hy' Hx Hx'.
    assert (Hrows : positional_slice (nrows field) (y_min e) (y_max e)
                    = (Z.to_N (y_min e), Z.to_N (y_max e - y_min e))).
    { unfold positional_slice, clamp_index.
      destruct (Z.ltb_spec (y_min e) 0), (Z.ltb_spec (y_max e) 0);
        f_equal; lia. }
    assert (Hcols : positional_slice (ncols field) (x_min e) (x_max e)
                    = (Z.to_N (x_min e), Z.to_N (x_max e - x_min e))).
    { unfold positional_slice, clamp_index.
      destruct (Z.ltb_spec (x_min e) 0), (Z.ltb_spec (x_max e) 0);
        f_equal; lia. }
    split.
    + rewrite sel_shape, Hrows, Hcols. reflexivity.
    + intros i j. rewrite sel_cell, Hrows, Hcols. reflexivity.
  - intros -> Hy Hy' Hx Hx'. split.
    + rewrite sel_shape. unfold label_slice. cbn [snd]. f_equal; f_equal; lia.
    + intros i j. rewrite sel_cell. unfold label_slice. cbn [fst].
      f_equal; f_equal; f_equal; lia.
Qed.

(** C5: the selector raises the error for an unknown field, whose message
    is "Variable <name> not found in the dataset." and so contains the
    requested name, exactly when the name is absent from the parent grid;
    for a name that is present no such error is raised. *)
Theorem unknown_field_error_iff_absent (pcf : Dataset A) (var : string)
    (e : extent) (pac_patch : bool) :
  ((exists msg,
      grid_selector axis_slice pcf var e pac_patch = Raise (ValueError msg))
   <-> variables pcf !! var = None)
  /\ (forall msg,
        grid_selector axis_slice pcf var e pac_patch = Raise (ValueError msg) ->
        msg = "Variable " +:+ var +:+ " not found in the dataset."
        /\ mentions var msg)
  /\ (is_Some (variables pcf !! var) ->
      forall msg,
        grid_selector axis_slice pcf var e pac_patch <> Raise (ValueError msg)).
Proof.
  pose proof (grid_selector_outcome axis_slice pcf var e pac_patch) as Hout.
  destruct (variables pcf !! var) as [field |] eqn:Hvar.
  - assert (Hno : forall msg,
              grid_selector axis_slice pcf var e pac_patch
              <> Raise (ValueError msg)).
    { intros msg Hmsg. destruct Hout as [[a Ha] | Hunbound]; congruence. }
    split; [split |]; [| discriminate | split].
    + intros [msg Hmsg]. destruct (Hno msg Hmsg).
    + intros msg Hmsg. destruct (Hno msg Hmsg).
    + intros _. exact Hno.
  - split; [split |]; [reflexivity | | split].
    + intros _. eexists. exact Hout.
    + intros msg Hmsg. rewrite Hout in Hmsg. injection Hmsg as <-.
      split; [reflexivity |].
      exists "Variable ", " not found in the dataset.". reflexivity.
    + intros [field Hfield]. discriminate.
Qed.

(** C9: for a name that is present in the parent grid but in none of the
    four lists, the Pacific branch binds no result and the call raises
    instead of returning an array, while the same call with the switch off
    returns the window of the extent. *)
Theorem pacific_unlisted_field_fails (pcf : Dataset A) (var : string)
    (field : ndarray A) (e : extent) :
  variables pcf !! var = Some field ->
  var ∉ T_VARS -> var ∉ U_VARS -> var ∉ V_VARS -> var ∉ F_VARS ->
  grid_selector axis_slice pcf var e true
  = Raise (UnboundLocalError "grid_array")
  /\ ~ is_ok (grid_selector axis_slice pcf var e true)
  /\ grid_selector axis_slice pcf var e false
     = Ok (sel axis_slice field (y_min e) (y_max e) (x_min e) (x_max e)).
Proof.
  intros Hvar HT HU HV HF.
  assert (Hraise : grid_selector axis_slice pcf var e true
                   = Raise (UnboundLocalError "grid_array")).
  { apply (grid_selector_unbound axis_slice pcf var field e Hvar).
    unfold ALL_VARS. rewrite !elem_of_app. tauto. }
  split; [exact Hraise |]. split.
  - intros [a Ha]. congruence.
  - apply (grid_selector_atlantic axis_slice pcf var field e Hvar).
Qed.
End SelectorClaims.

(** ** Properties of the assembler *)

Section AssemblerClaims.
Context {A : Type}.
Context (axis_slice : N -> Z -> Z -> N * N).

(** C4, amended: on a parent grid that holds every configured field, a
    collection returned by the assembler has exactly the configured names,
    which are eighteen (six Center names and four of each other family),
    and all its fields have one and the same 2-D shape.  The assembler
    returns a collection whenever the fields of the parent grid share the
    grid's shape and, for the Pacific switch, the row window and the column
    window keep their length when shifted by one. *)
Theorem create_dataset_fields (pcf : Dataset A) (e : extent)
    (pac_patch : bool) :
  complete pcf ->
  (forall d,
     create_dataset axis_slice pcf e pac_patch = Ok d ->
     dom (variables d) = list_to_set ALL_VARS
     /\ size (variables d) = 18%nat
     /\ forall v a, variables d !! v = Some a -> shape a = (dim_y d, dim_x d))
  /\ (uniform pcf ->
      (pac_patch = true ->
         shift_stable axis_slice (dim_y pcf) (y_min e) (y_max e)
         /\ shift_stable axis_slice (dim_x pcf) (x_min e) (x_max e)) ->
      is_ok (create_dataset axis_slice pcf e pac_patch)).
Proof.
  intros Hcomplete. split.
  - intros d Hd.
    destruct (create_dataset_names axis_slice pcf e pac_patch d Hd)
      as [Hdom Hsize].
    destruct (create_dataset_ok axis_slice pcf e pac_patch d Hd)
      as (_ & _ & Hshape).
    auto.
  - intros Huniform Hshift. apply create_dataset_total; assumption.
Qed.

(** C6: if the selection of some configured field raises, the assembler
    raises the error of the first configured field whose selection raises
    and returns no collection; a collection is returned only when the
    selection of every configured field succeeds. *)
Theorem create_dataset_propagates (pcf : Dataset A) (e : extent)
    (pac_patch : bool) (var : string) :
  var ∈ ALL_VARS ->
  (~ is_ok (grid_selector axis_slice pcf var e pac_patch) ->
   ~ is_ok (create_dataset axis_slice pcf e pac_patch)
   /\ exists pre v post err,
        ALL_VARS = pre ++ v :: post
        /\ (forall u, u ∈ pre ->
              is_ok (grid_selector axis_slice pcf u e pac_patch))
        /\ grid_selector axis_slice pcf v e pac_patch = Raise err
        /\ create_dataset axis_slice pcf e pac_patch = Raise err)
  /\ (is_ok (create_dataset axis_slice pcf e pac_patch) ->
      is_ok (grid_selector axis_slice pcf var e pac_patch)).
Proof.
  intros Hvar.
  assert (Hsucc : is_ok (create_dataset axis_slice pcf e pac_patch) ->
                  is_ok (grid_selector axis_slice pcf var e pac_patch)).
  { intros [d Hd]. apply create_dataset_ok in Hd as (Hin & _).
    destruct (Hin var Hvar) as (a & Ha & _). exists a. exact Ha. }
  split; [| exact Hsucc].
  intros Hfail. split; [intros Hok; apply Hfail, Hsucc, Hok |].
  destruct (fill_data_vars_outcome axis_slice pcf e pac_patch ALL_VARS ∅)
    as [[dv Hdv] | (pre & v & post & err & Hsplit & Hpre & Hv & _)].
  - exfalso. apply Hfail.
    apply fill_data_vars_ok in Hdv as [Hin _].
    destruct (Hin var Hvar) as (a & Ha & _). exists a. exact Ha.
  - exists pre, v, post, err. repeat split; try assumption.
    apply (create_dataset_raise axis_slice pcf e pac_patch pre v post);
      assumption.
Qed.
End AssemblerClaims.

(** ** Properties of the program over the store *)

Section StoreClaims.
Context {A : Type}.
Context (axis_slice : N -> Z -> Z -> N * N).

(** C7: the selector is a pure function of its inputs.  Run in two worlds
    that hold the same parent grid behind the reference, whatever else they
    hold, the two calls with the same field name, extent and switch have
    the same outcome, and each call leaves its world, the parent grid
    included, as it found it. *)
Theorem grid_selector_pure (w1 w2 : Store.world (A := A)) (pcf : N)
    (var : string) (e : extent) (pac_patch : bool) :
  Store.heap w1 !! pcf = Store.heap w2 !! pcf ->
  fst (Store.grid_selector axis_slice pcf var e pac_patch w1)
  = fst (Store.grid_selector axis_slice pcf var e pac_patch w2)
  /\ snd (Store.grid_selector axis_slice pcf var e pac_patch w1) = w1
  /\ snd (Store.grid_selector axis_slice pcf var e pac_patch w2) = w2.
Proof.
  intros Hsame.
  destruct (Store.heap w1 !! pcf) as [ds |] eqn:H1; symmetry in Hsame.
  - rewrite (store_grid_selector_run axis_slice w1 pcf ds) by exact H1.
    rewrite (store_grid_selector_run axis_slice w2 pcf ds) by exact Hsame.
    repeat split.
  - rewrite (store_grid_selector_dangling axis_slice w1 pcf) by exact H1.
    rewrite (store_grid_selector_dangling axis_slice w2 pcf) by exact Hsame.
    repeat split.
Qed.
End StoreClaims.

(** ** Concatenation and [main] *)

Section MainClaims.
Context {A : Type}.
Context (axis_slice : N -> Z -> Z -> N * N).

Lemma xr_concat_two (atl pac whole : Dataset A) :
  xr_concat [atl; pac] = Ok whole ->
  dim_x atl = dim_x pac
  /\ dim_y whole = (dim_y atl + dim_y pac)%N
  /\ forall v,
       variables whole !! v
       = (a ← variables atl !! v; p ← variables pac !! v; Some (vstack a p)).
Proof.
  cbn [xr_concat]. cbn. unfold concat_pair.
  destruct (negb (bool_decide _)); [discriminate |].
  destruct (dim_x atl =? dim_x pac)%N eqn:Hx; [| discriminate].
  cbn [negb]. intros [= <-]. apply N.eqb_eq in Hx.
  split; [exact Hx |]. split; [reflexivity |].
  intros v. cbn [variables]. apply map_lookup_zip_with.
Qed.

(** C10: when [main] succeeds, the file it writes is the concatenation of
    the Atlantic regional grid, listed first, and the Pacific regional grid
    along the row axis: every field of the output has the rows of the
    Atlantic field first, in their order, followed by the rows of the
    Pacific field. *)
Theorem main_stacks_atlantic_then_pacific (w : Store.world) (pcf : Dataset A) :
  Store.files w !! PARENT_FILE = Some pcf ->
  fst (Store.main axis_slice w) = Ok tt ->
  exists atl pac whole,
    create_dataset axis_slice pcf (atl_extent (dim_x pcf)) false = Ok atl
    /\ create_dataset axis_slice pcf pac_extent true = Ok pac
    /\ xr_concat [atl; pac] = Ok whole
    /\ Store.files (snd (Store.main axis_slice w)) !! Store.target_file
       = Some whole
    /\ dim_y whole = (dim_y atl + dim_y pac)%N
    /\ forall v, v ∈ ALL_VARS ->
         exists a p o,
           variables atl !! v = Some a
           /\ variables pac !! v = Some p
           /\ variables whole !! v = Some o
           /\ nrows o = (nrows a + nrows p)%N
           /\ (forall i j, (i < nrows a)%N -> cell o i j = cell a i j)
           /\ (forall i j, (nrows a <= i)%N ->
                 cell o i j = cell p (i - nrows a)%N j)
           /\ to_lists o = to_lists a ++ to_lists p.
Proof.
  intros Hfile Hok.
  pose proof (main_outcome axis_slice w pcf Hfile) as Hrun.
  destruct (dim_x pcf =? 1)%N; [destruct Hrun as [Hres _]; congruence |].
  destruct (dim_y pcf =? 1)%N.
  { destruct Hrun as [Hres _]. rewrite Hres in Hok.
    destruct (bool_decide _); discriminate. }
  rewrite stitched_cases in Hrun.
  destruct (create_dataset axis_slice pcf (atl_extent (dim_x pcf)) false)
    as [atl | err] eqn:Hatl; [| destruct Hrun; congruence].
  destruct (create_dataset axis_slice pcf pac_extent true)
    as [pac | err] eqn:Hpac; [| destruct Hrun; congruence].
  destruct (concat_pair atl pac)
    as [whole | err] eqn:Hwhole; [| destruct Hrun; congruence].
  destruct (bool_decide (is_Some (Store.files w !! TARGET_PATH)));
    [destruct Hrun; congruence |].
  destruct Hrun as (_ & Hfiles & _).
  change (xr_concat [atl; pac] = Ok whole) in Hwhole.
  exists atl, pac, whole.
  split; [reflexivity |]. split; [reflexivity |]. split; [exact Hwhole |].
  split; [rewrite Hfiles; apply lookup_insert_eq |].
  apply xr_concat_two in Hwhole as (Hx & Hy & Hvars).
  split; [exact Hy |].
  apply create_dataset_ok in Hatl as (Hatl & _ & Hatl_shape).
  apply create_dataset_ok in Hpac as (Hpac & _ & Hpac_shape).
  intros v Hv.
  destruct (Hatl v Hv) as (a & _ & Ha).
  destruct (Hpac v Hv) as (p & _ & Hp).
  exists a, p, (vstack a p).
  split; [exact Ha |]. split; [exact Hp |].
  split; [rewrite Hvars, Ha, Hp; reflexivity |].
  split; [reflexivity |].
  split; [intros i j; apply vstack_upper |].
  split; [intros i j; apply vstack_lower |].
  apply to_lists_vstack.
  pose proof (Hatl_shape v a Ha) as [= _ Hca].
  pose proof (Hpac_shape v p Hp) as [= _ Hcp].
  congruence.
Qed.
End MainClaims.

(** ** The properties on sample grids *)

Example pacific_east_face_cut :
  (fun r => match r with Ok a => Some (shape a, to_lists a) | Raise _ => None end)
    (grid_selector positional_slice (sample_grid 6 6) "glamu"
                   (Extent 1 4 2 5) true)
  = Some ((3%N, 3%N),
          [[300003; 300002; 300001];
           [200003; 200002; 200001];
           [100003; 100002; 100001]]).
Proof. vm_compute. reflexivity. Qed.

Example atlantic_cut_by_position :
  (fun r => match r with Ok a => Some (shape a, to_lists a) | Raise _ => None end)
    (grid_selector positional_slice (sample_grid 6 6) "glamu"
                   (Extent 1 4 2 5) false)
  = Some ((3%N, 3%N),
          [[100002; 100003; 100004];
           [200002; 200003; 200004];
           [300002; 300003; 300004]]).
Proof. vm_compute. reflexivity. Qed.

Example atlantic_cut_by_label :
  (fun r => match r with Ok a => Some (shape a, to_lists a) | Raise _ => None end)
    (grid_selector label_slice (sample_grid 6 6) "glamu" (Extent 1 3 2 4) false)
  = Some ((3%N, 3%N),
          [[100002; 100003; 100004];
           [200002; 200003; 200004];
           [300002; 300003; 300004]]).
Proof. vm_compute. reflexivity. Qed.

(** Reversing both axes differs from reversing either axis alone. *)
Example np_flip_reverses_both_axes :
  let window := sel positional_slice (pattern_field 6 6) 1 3 2 4 in
  to_lists window = [[100002; 100003]; [200002; 200003]]
  /\ to_lists (np_flip window) = [[200003; 200002]; [100003; 100002]]
  /\ to_lists (np_flip window) <> to_lists (flip_rows window)
  /\ to_lists (np_flip window) <> to_lists (flip_cols window).
Proof. vm_compute. repeat split; discriminate. Qed.

(** [main] on a parent grid of 7600 rows and 6000 columns, cut by position:
    249 Atlantic rows, then 48 Pacific rows, of 4400 columns each. *)
Example main_on_sample_grid :
  let out := Store.main positional_slice (sample_world 7600 6000) in
  fst out = Ok tt
  /\ TARGET_PATH ∈ Store.dirs (snd out)
  /\ option_map
       (fun d =>
          (dim_y d, dim_x d,
           option_map
             (fun a => (shape a, cell a 0 0, cell a 248 4399,
                        cell a 249 0, cell a 296 4399))
             (variables d !! "glamu")))
       (Store.files (snd out) !! Store.target_file)
     = Some (297%N, 4400%N,
             Some ((297%N, 4400%N),
                   735000101, 759804500, 759705898, 755001499)).
Proof.
  cbv zeta. split; [vm_compute; reflexivity |].
  split; [decide_closed | vm_compute; reflexivity].
Qed.

(** ** Instances of the theorems *)

Lemma pacific_window_by_family_witness :
  variables (sample_grid 50 50) !! "glamu" = Some (pattern_field 50 50)
  /\ "glamu" ∈ family_vars EastFace
  /\ exists r,
       grid_selector positional_slice (sample_grid 50 50) "glamu"
                     (Extent 10 20 30 40) true = Ok r
       /\ shape r = (10%N, 10%N)
       /\ forall i j, (i < 10)%N -> (j < 10)%N ->
            cell r i j = cell (pattern_field 50 50) (19 - i)%N (38 - j)%N.
Proof.
  assert (Hvar : variables (sample_grid 50 50) !! "glamu"
                 = Some (pattern_field 50 50)) by (vm_compute; reflexivity).
  assert (Hf : "glamu" ∈ family_vars EastFace) by decide_closed.
  split; [exact Hvar |]. split; [exact Hf |].
  destruct (pacific_window_by_family positional_slice (sample_grid 50 50)
              "glamu" (pattern_field 50 50) (Extent 10 20 30 40) EastFace
              Hvar Hf) as (r & Hr & _ & _ & _ & Hpos).
  exists r. split; [exact Hr |].
  apply (Hpos eq_refl eq_refl eq_refl); cbn; lia.
Defined.

(** A field that is present in the parent grid and in none of the four
    lists has no family, and the Pacific switch cuts no window of it. *)
Lemma pacific_window_counterexample :
  is_Some (variables (sample_grid 50 50) !! "tmask")
  /\ (forall f, "tmask" ∉ family_vars f)
  /\ grid_selector positional_slice (sample_grid 50 50) "tmask"
                   (Extent 10 20 30 40) true
     = Raise (UnboundLocalError "grid_array")
  /\ ~ (exists r : ndarray Z,
          grid_selector positional_slice (sample_grid 50 50) "tmask"
                        (Extent 10 20 30 40) true = Ok r).
Proof.
  assert (Hraise : grid_selector positional_slice (sample_grid 50 50) "tmask"
                                 (Extent 10 20 30 40) true
                   = Raise (UnboundLocalError "grid_array"))
    by (vm_compute; reflexivity).
  split; [exists (pattern_field 50 50); vm_compute; reflexivity |].
  split; [intros f; destruct f; decide_closed |].
  split; [exact Hraise |].
  intros [r Hr]. rewrite Hraise in Hr. discriminate Hr.
Qed.

(** A field of the parent grid outside the four lists: no array is
    returned. *)
Lemma pacific_unlisted_counterexample :
  is_Some (variables (sample_grid 6 6) !! "tmask")
  /\ ~ (exists r : ndarray Z,
          grid_selector positional_slice (sample_grid 6 6) "tmask"
                        (Extent 1 4 2 5) true = Ok r).
Proof.
  split.
  - exists (pattern_field 6 6). vm_compute. reflexivity.
  - intros [r Hr]. vm_compute in Hr. discriminate Hr.
Qed.

Lemma pacific_result_is_flipped_window_witness :
  variables (sample_grid 6 6) !! "gphif" = Some (pattern_field 6 6)
  /\ "gphif" ∈ family_vars Corner
  /\ exists r,
       grid_selector positional_slice (sample_grid 6 6) "gphif"
                     (Extent 1 4 2 5) true = Ok r
       /\ shape r
          = shape (sel_extent positional_slice (pattern_field 6 6)
                              (family_window Corner (Extent 1 4 2 5)))
       /\ (forall i j,
             cell r i j
             = cell (sel_extent positional_slice (pattern_field 6 6)
                                (family_window Corner (Extent 1 4 2 5)))
                    (nrows r - 1 - i)%N (ncols r - 1 - j)%N)
       /\ to_lists r
          = rev (map (@rev Z)
                     (to_lists
                        (sel_extent positional_slice (pattern_field 6 6)
                                    (family_window Corner (Extent 1 4 2 5))))).
Proof.
  assert (Hvar : variables (sample_grid 6 6) !! "gphif"
                 = Some (pattern_field 6 6)) by (vm_compute; reflexivity).
  assert (Hf : "gphif" ∈ family_vars Corner) by decide_closed.
  split; [exact Hvar |]. split; [exact Hf |].
  exact (pacific_result_is_flipped_window positional_slice (sample_grid 6 6)
           "gphif" (pattern_field 6 6) (Extent 1 4 2 5) Corner Hvar Hf).
Defined.

Lemma atlantic_result_is_window_witness :
  variables (sample_grid 6 6) !! "e1v" = Some (pattern_field 6 6)
  /\ (exists r,
        grid_selector positional_slice (sample_grid 6 6) "e1v"
                      (Extent 1 3 2 4) false = Ok r
        /\ shape r = (2%N, 2%N)
        /\ forall i j,
             cell r i j = cell (pattern_field 6 6) (1 + i)%N (2 + j)%N)
  /\ (exists r,
        grid_selector label_slice (sample_grid 6 6) "e1v"
                      (Extent 1 3 2 4) false = Ok r
        /\ shape r = (3%N, 3%N)
        /\ forall i j,
             cell r i j = cell (pattern_field 6 6) (1 + i)%N (2 + j)%N).
Proof.
  assert (Hvar : variables (sample_grid 6 6) !! "e1v"
                 = Some (pattern_field 6 6)) by (vm_compute; reflexivity).
  split; [exact Hvar |]. split.
  - destruct (atlantic_result_is_window positional_slice (sample_grid 6 6)
                "e1v" (pattern_field 6 6) (Extent 1 3 2 4) Hvar)
      as (r & Hr & _ & _ & Hpos & _).
    exists r. split; [exact Hr |].
    apply (Hpos eq_refl); cbn; lia.
  - destruct (atlantic_result_is_window label_slice (sample_grid 6 6) "e1v"
                (pattern_field 6 6) (Extent 1 3 2 4) Hvar)
      as (r & Hr & _ & _ & _ & Hlabel).
    exists r. split; [exact Hr |].
    apply (Hlabel eq_refl); cbn; lia.
Defined.

(** On a parent grid without coordinate labels the upper bounds are left
    out: the extent (1, 3, 2, 4) gives two rows and two columns, not the
    three by three of the inclusive window. *)
Lemma atlantic_inclusive_counterexample :
  is_Some (variables (sample_grid 6 6) !! "glamu")
  /\ exists r,
       grid_selector positional_slice (sample_grid 6 6) "glamu"
                     (Extent 1 3 2 4) false = Ok r
       /\ shape r = (2%N, 2%N)
       /\ shape r <> (3%N, 3%N)
       /\ to_lists r = [[100002; 100003]; [200002; 200003]]
       /\ to_lists (sel label_slice (pattern_field 6 6) 1 3 2 4)
          = [[100002; 100003; 100004]; [200002; 200003; 200004];
             [300002; 300003; 300004]].
Proof.
  split; [exists (pattern_field 6 6); vm_compute; reflexivity |].
  exists (sel positional_slice (pattern_field 6 6) 1 3 2 4).
  split; [vm_compute; reflexivity |].
  split; [vm_compute; reflexivity |].
  split; [vm_compute; discriminate |].
  split; vm_compute; reflexivity.
Qed.

(** The configured names are eighteen, not sixteen, and an extent that
    reaches past the last row makes the shifted windows of the Pacific switch
    longer than the unshifted ones, so that no collection is returned. *)
Lemma sample_grid_complete (ny nx : N) : complete (sample_grid ny nx).
Proof.
  intros v Hv. exists (pattern_field ny nx).
  unfold ALL_VARS, T_VARS, U_VARS, V_VARS, F_VARS in Hv. cbn [app] in Hv.
  list_cases Hv; reflexivity.
Qed.

Lemma sample_grid_uniform (ny nx : N) : uniform (sample_grid ny nx).
Proof.
  intros v a Hv. cbn [sample_grid variables dim_y dim_x] in *.
  apply elem_of_list_to_map_2, list_elem_of_In, in_map_iff in Hv.
  destruct Hv as (u & [= _ <-] & _). reflexivity.
Qed.

Lemma create_dataset_counterexample :
  complete (sample_grid 4 4)
  /\ (exists d,
        create_dataset positional_slice (sample_grid 4 4) (Extent 1 3 0 2) false
        = Ok d
        /\ size (dom (variables d)) = 18%nat
        /\ size (dom (variables d)) <> 16%nat)
  /\ ~ is_ok (create_dataset positional_slice (sample_grid 4 4)
                             (Extent 3 10 0 2) true)
  /\ ~ is_ok (create_dataset label_slice (sample_grid 4 4)
                             (Extent 3 10 0 2) true).
Proof.
  split; [apply sample_grid_complete | split; [| split]].
  - destruct (create_dataset positional_slice (sample_grid 4 4)
                             (Extent 1 3 0 2) false) as [d | err] eqn:Hd.
    + exists d. split; [reflexivity |].
      apply create_dataset_names in Hd as [_ Hsize].
      rewrite size_dom, Hsize. split; [reflexivity | discriminate].
    + vm_compute in Hd. discriminate Hd.
  - intros [d Hd]. vm_compute in Hd. discriminate Hd.
  - intros [d Hd]. vm_compute in Hd. discriminate Hd.
Qed.

Lemma create_dataset_fields_witness :
  complete (sample_grid 7600 6000)
  /\ uniform (sample_grid 7600 6000)
  /\ shift_stable positional_slice 7600 7550 (-2)
  /\ shift_stable positional_slice 6000 1500 5900
  /\ is_ok (create_dataset positional_slice (sample_grid 7600 6000)
                           pac_extent true)
  /\ forall d,
       create_dataset positional_slice (sample_grid 7600 6000) pac_extent true
       = Ok d ->
       dom (variables d) = list_to_set ALL_VARS
       /\ size (variables d) = 18%nat
       /\ forall v a, variables d !! v = Some a -> shape a = (dim_y d, dim_x d).
Proof.
  pose proof (sample_grid_complete 7600 6000) as Hcomplete.
  pose proof (sample_grid_uniform 7600 6000) as Huniform.
  assert (Hy : shift_stable positional_slice 7600 7550 (-2)) by reflexivity.
  assert (Hx : shift_stable positional_slice 6000 1500 5900) by reflexivity.
  destruct (create_dataset_fields positional_slice (sample_grid 7600 6000)
              pac_extent true Hcomplete) as [Hfields Htotal].
  repeat (split; [assumption |]).
  split; [| exact Hfields].
  apply Htotal; [exact Huniform | intros _; split; assumption].
Defined.

Lemma create_dataset_propagates_witness :
  "e2f" ∈ ALL_VARS
  /\ ~ is_ok (grid_selector positional_slice (incomplete_grid 6 6) "e2f"
                            (Extent 1 4 2 5) false)
  /\ ~ is_ok (create_dataset positional_slice (incomplete_grid 6 6)
                             (Extent 1 4 2 5) false)
  /\ exists pre v post err,
       ALL_VARS = pre ++ v :: post
       /\ (forall u, u ∈ pre ->
             is_ok (grid_selector positional_slice (incomplete_grid 6 6) u
                                  (Extent 1 4 2 5) false))
       /\ grid_selector positional_slice (incomplete_grid 6 6) v
                        (Extent 1 4 2 5) false = Raise err
       /\ create_dataset positional_slice (incomplete_grid 6 6)
                         (Extent 1 4 2 5) false = Raise err.
Proof.
  assert (Hvar : "e2f" ∈ ALL_VARS) by decide_closed.
  assert (Hfail : ~ is_ok (grid_selector positional_slice (incomplete_grid 6 6)
                                         "e2f" (Extent 1 4 2 5) false)).
  { intros [a Ha]. vm_compute in Ha. discriminate Ha. }
  split; [exact Hvar |]. split; [exact Hfail |].
  exact (proj1 (create_dataset_propagates positional_slice (incomplete_grid 6 6)
                  (Extent 1 4 2 5) false "e2f" Hvar) Hfail).
Defined.

Example create_dataset_missing_field :
  create_dataset positional_slice (incomplete_grid 6 6) (Extent 1 4 2 5) false
  = Raise (ValueError "Variable e2f not found in the dataset.").
Proof. vm_compute. reflexivity. Qed.

Lemma grid_selector_pure_witness :
  Store.heap loaded_world !! 0%N = Store.heap busy_world !! 0%N
  /\ fst (Store.grid_selector positional_slice 0 "glamv" (Extent 1 4 2 5) true
                              loaded_world)
     = fst (Store.grid_selector positional_slice 0 "glamv" (Extent 1 4 2 5) true
                                busy_world)
  /\ snd (Store.grid_selector positional_slice 0 "glamv" (Extent 1 4 2 5) true
                              loaded_world) = loaded_world
  /\ snd (Store.grid_selector positional_slice 0 "glamv" (Extent 1 4 2 5) true
                              busy_world) = busy_world.
Proof.
  assert (Hsame : Store.heap loaded_world !! 0%N = Store.heap busy_world !! 0%N)
    by (vm_compute; reflexivity).
  split; [exact Hsame |].
  exact (grid_selector_pure positional_slice loaded_world busy_world 0 "glamv"
           (Extent 1 4 2 5) true Hsame).
Defined.

Lemma pacific_unlisted_field_fails_witness :
  variables (sample_grid 6 6) !! "tmask" = Some (pattern_field 6 6)
  /\ ("tmask" ∉ ALL_VARS)
  /\ grid_selector positional_slice (sample_grid 6 6) "tmask"
                   (Extent 1 4 2 5) true
     = Raise (UnboundLocalError "grid_array")
  /\ ~ is_ok (grid_selector positional_slice (sample_grid 6 6) "tmask"
                            (Extent 1 4 2 5) true)
  /\ grid_selector positional_slice (sample_grid 6 6) "tmask"
                   (Extent 1 4 2 5) false
     = Ok (sel positional_slice (pattern_field 6 6) 1 4 2 5).
Proof.
  assert (Hvar : variables (sample_grid 6 6) !! "tmask"
                 = Some (pattern_field 6 6)) by (vm_compute; reflexivity).
  assert (Hall : "tmask" ∉ ALL_VARS) by decide_closed.
  assert (HT : "tmask" ∉ T_VARS) by decide_closed.
  assert (HU : "tmask" ∉ U_VARS) by decide_closed.
  assert (HV : "tmask" ∉ V_VARS) by decide_closed.
  assert (HF : "tmask" ∉ F_VARS) by decide_closed.
  split; [exact Hvar |]. split; [exact Hall |].
  exact (pacific_unlisted_field_fails positional_slice (sample_grid 6 6) "tmask"
           (pattern_field 6 6) (Extent 1 4 2 5) Hvar HT HU HV HF).
Defined.

Lemma main_stacks_atlantic_then_pacific_witness :
  Store.files (sample_world 7600 6000) !! PARENT_FILE
  = Some (sample_grid 7600 6000)
  /\ fst (Store.main positional_slice (sample_world 7600 6000)) = Ok tt
  /\ exists atl pac whole,
       create_dataset positional_slice (sample_grid 7600 6000)
                      (atl_extent 6000) false = Ok atl
       /\ create_dataset positional_slice (sample_grid 7600 6000)
                         pac_extent true = Ok pac
       /\ xr_concat [atl; pac] = Ok whole
       /\ Store.files (snd (Store.main positional_slice (sample_world 7600 6000)))
            !! Store.target_file = Some whole
       /\ dim_y whole = (dim_y atl + dim_y pac)%N
       /\ forall v, v ∈ ALL_VARS ->
            exists a p o,
              variables atl !! v = Some a
              /\ variables pac !! v = Some p
              /\ variables whole !! v = Some o
              /\ nrows o = (nrows a + nrows p)%N
              /\ (forall i j, (i < nrows a)%N -> cell o i j = cell a i j)
              /\ (forall i j, (nrows a <= i)%N ->
                    cell o i j = cell p (i - nrows a)%N j)
              /\ to_lists o = to_lists a ++ to_lists p.
Proof.
  assert (Hfile : Store.files (sample_world 7600 6000) !! PARENT_FILE
                  = Some (sample_grid 7600 6000)) by (vm_compute; reflexivity).
  assert (Hok : fst (Store.main positional_slice (sample_world 7600 6000))
                = Ok tt) by (vm_compute; reflexivity).
  split; [exact Hfile |]. split; [exact Hok |].
  exact (main_stacks_atlantic_then_pacific positional_slice
           (sample_world 7600 6000) (sample_grid 7600 6000) Hfile Hok).
Defined.


(** ** Further properties of [main] *)

Lemma target_file_not_parent : Store.target_file <> PARENT_FILE.
Proof. decide_closed. Qed.

Lemma target_file_not_dir : Store.target_file <> TARGET_PATH.
Proof. decide_closed. Qed.

Section MainEffects.
Context {A : Type}.
Context (axis_slice : N -> Z -> Z -> N * N).

Lemma main_raise_inv (w : Store.world) (pcf : Dataset A) err :
  Store.files w !! PARENT_FILE = Some pcf ->
  fst (Store.main axis_slice w) = Raise err ->
  Store.files (snd (Store.main axis_slice w)) = Store.files w
  /\ Store.dirs (snd (Store.main axis_slice w)) = Store.dirs w.
Proof.
  intros Hfile Herr.
  pose proof (main_outcome axis_slice w pcf Hfile) as Hrun.
  destruct (dim_x pcf =? 1)%N; [tauto |].
  destruct (dim_y pcf =? 1)%N; [tauto |].
  destruct (stitched axis_slice pcf); [| tauto].
  destruct (bool_decide (is_Some (Store.files w !! TARGET_PATH))); [tauto |].
  destruct Hrun as [Hres _]. congruence.
Qed.

Lemma main_ok_inv (w : Store.world) (pcf : Dataset A) :
  Store.files w !! PARENT_FILE = Some pcf ->
  fst (Store.main axis_slice w) = Ok tt ->
  dim_x pcf <> 1%N /\ dim_y pcf <> 1%N
  /\ Store.files w !! TARGET_PATH = None
  /\ exists whole,
       stitched axis_slice pcf = Ok whole
       /\ Store.files (snd (Store.main axis_slice w))
          = <[Store.target_file := whole]> (Store.files w)
       /\ Store.dirs (snd (Store.main axis_slice w))
          = {[TARGET_PATH]} ∪ Store.dirs w.
Proof.
  intros Hfile Hok.
  pose proof (main_outcome axis_slice w pcf Hfile) as Hrun.
  destruct (N.eqb_spec (dim_x pcf) 1); [destruct Hrun; congruence |].
  destruct (N.eqb_spec (dim_y pcf) 1).
  { destruct Hrun as [Hres _]. rewrite Hres in Hok.
    destruct (bool_decide _); discriminate. }
  destruct (stitched axis_slice pcf) as [whole | err];
    [| destruct Hrun; congruence].
  destruct (bool_decide (is_Some (Store.files w !! TARGET_PATH))) eqn:Hisfile;
    [destruct Hrun; congruence |].
  apply bool_decide_eq_false in Hisfile.
  split; [assumption |]. split; [assumption |]. split.
  - destruct (Store.files w !! TARGET_PATH) eqn:Hf; [| reflexivity].
    exfalso. apply Hisfile. eauto.
  - exists whole. split; [reflexivity |]. tauto.
Qed.

Lemma main_ok_intro (w : Store.world) (pcf whole : Dataset A) :
  Store.files w !! PARENT_FILE = Some pcf ->
  dim_x pcf <> 1%N -> dim_y pcf <> 1%N ->
  Store.files w !! TARGET_PATH = None ->
  stitched axis_slice pcf = Ok whole ->
  fst (Store.main axis_slice w) = Ok tt.
Proof.
  intros Hfile Hx Hy Htarget Hwhole.
  pose proof (main_outcome axis_slice w pcf Hfile) as Hrun.
  destruct (N.eqb_spec (dim_x pcf) 1); [contradiction |].
  destruct (N.eqb_spec (dim_y pcf) 1); [contradiction |].
  rewrite Hwhole, Htarget in Hrun.
  rewrite bool_decide_false in Hrun by (intros [? ?]; discriminate).
  tauto.
Qed.

(** X1: a run of [main] that fails, whether the parent file is missing or an
    assembly or the concatenation raises, has written no file and created no
    directory; without the parent file the error is [FileNotFoundError] for
    its path and the world is left as it was. *)
Theorem main_failure_leaves_files (w : Store.world (A := A)) (err : exception) :
  fst (Store.main axis_slice w) = Raise err ->
  Store.files (snd (Store.main axis_slice w)) = Store.files w
  /\ Store.dirs (snd (Store.main axis_slice w)) = Store.dirs w
  /\ (Store.files w !! PARENT_FILE = None ->
      err = FileNotFoundError PARENT_FILE
      /\ snd (Store.main axis_slice w) = w).
Proof.
  intros Herr.
  destruct (Store.files w !! PARENT_FILE) as [pcf |] eqn:Hfile.
  - destruct (main_raise_inv w pcf err Hfile Herr) as [Hfiles Hdirs].
    repeat split; try assumption; discriminate.
  - rewrite (main_missing_file axis_slice w Hfile) in *. cbn [fst snd] in *.
    injection Herr as <-. repeat split.
Qed.

(** X2: a successful run of [main] writes the target file and nothing else:
    every other path, the parent file among them, holds what it held before.
    The target directory is a directory afterwards and no regular file; it
    is the only directory the run may have created, and it is created only
    when it was missing. *)
Theorem main_success_touches_target_only (w : Store.world) (pcf : Dataset A) :
  Store.files w !! PARENT_FILE = Some pcf ->
  fst (Store.main axis_slice w) = Ok tt ->
  (forall path, path <> Store.target_file ->
     Store.files (snd (Store.main axis_slice w)) !! path = Store.files w !! path)
  /\ Store.files (snd (Store.main axis_slice w)) !! PARENT_FILE = Some pcf
  /\ (exists whole,
        stitched axis_slice pcf = Ok whole
        /\ Store.files (snd (Store.main axis_slice w)) !! Store.target_file
           = Some whole)
  /\ TARGET_PATH ∈ Store.dirs (snd (Store.main axis_slice w))
  /\ Store.files (snd (Store.main axis_slice w)) !! TARGET_PATH = None
  /\ Store.dirs (snd (Store.main axis_slice w)) = {[TARGET_PATH]} ∪ Store.dirs w
  /\ (TARGET_PATH ∈ Store.dirs w ->
      Store.dirs (snd (Store.main axis_slice w)) = Store.dirs w).
Proof.
  intros Hfile Hok.
  destruct (main_ok_inv w pcf Hfile Hok)
    as (_ & _ & Htarget & whole & Hwhole & Hfiles & Hdirs).
  rewrite Hfiles, Hdirs.
  split; [intros path Hpath; apply lookup_insert_ne; congruence |].
  split.
  { rewrite lookup_insert_ne by apply target_file_not_parent. exact Hfile. }
  split; [exists whole; split; [exact Hwhole | apply lookup_insert_eq] |].
  split; [apply elem_of_union_l, elem_of_singleton; reflexivity |].
  split.
  { rewrite lookup_insert_ne by apply target_file_not_dir. exact Htarget. }
  split; [reflexivity |].
  intros Hdir. apply subseteq_union_1_L, singleton_subseteq_l, Hdir.
Qed.

(** X3: [main] is idempotent on the file system: run again in the world a
    successful run has left, it succeeds again and leaves every file and
    every directory as the first run left them. *)
Theorem main_idempotent_on_files (w : Store.world) (pcf : Dataset A) :
  Store.files w !! PARENT_FILE = Some pcf ->
  fst (Store.main axis_slice w) = Ok tt ->
  fst (Store.main axis_slice (snd (Store.main axis_slice w))) = Ok tt
  /\ Store.files (snd (Store.main axis_slice (snd (Store.main axis_slice w))))
     = Store.files (snd (Store.main axis_slice w))
  /\ Store.dirs (snd (Store.main axis_slice (snd (Store.main axis_slice w))))
     = Store.dirs (snd (Store.main axis_slice w)).
Proof.
  intros Hfile Hok.
  destruct (main_ok_inv w pcf Hfile Hok)
    as (Hx & Hy & Htarget & whole & Hwhole & Hfiles & Hdirs).
  assert (Hfile' : Store.files (snd (Store.main axis_slice w)) !! PARENT_FILE
                   = Some pcf).
  { rewrite Hfiles, lookup_insert_ne by apply target_file_not_parent.
    exact Hfile. }
  assert (Htarget' : Store.files (snd (Store.main axis_slice w)) !! TARGET_PATH
                     = None).
  { rewrite Hfiles, lookup_insert_ne by apply target_file_not_dir.
    exact Htarget. }
  pose proof (main_ok_intro _ pcf whole Hfile' Hx Hy Htarget' Hwhole) as Hok'.
  split; [exact Hok' |].
  destruct (main_ok_inv _ pcf Hfile' Hok')
    as (_ & _ & _ & whole' & Hwhole' & Hfiles' & Hdirs').
  assert (whole' = whole) by congruence. subst whole'.
  rewrite Hfiles', Hdirs', Hfiles, Hdirs. split.
  - apply insert_insert_eq.
  - rewrite (assoc_L (∪)), (idemp_L (∪)). reflexivity.
Qed.
End MainEffects.

(** ** The Atlantic extent of [main] *)

Lemma atl_extent_closed_form (x_size : N) :
  atl_extent x_size
  = Extent 7350 (-1) (2 * (Z.of_N x_size / 2) - 5899) (Z.of_N x_size - 1499).
Proof.
  unfold atl_extent, atl_first_xind, atl_last_xind, x_middle,
    ATLANTIC_Y_INDICES, PACIFIC_X_INDICES.
  cbn [fst snd]. rewrite Z.quot_div_nonneg by lia. f_equal; lia.
Qed.

Section MainExtent.
Context {A : Type}.
Context (axis_slice : N -> Z -> Z -> N * N).

(** C8, amended: for a parent grid whose column count [x_size] is not 1, so
    that the column axis is still there after the squeeze, [main] assembles
    the Atlantic regional grid with the rows of ATLANTIC_Y_INDICES and the
    columns from [P1 + (x_middle - P1) * 2 + 1 = 2 * x_middle - P1 + 1] to
    [x_size - P0 + 1], where [x_middle] is [x_size] halved and rounded down
    and [(P0, P1)] is PACIFIC_X_INDICES: an error of that assembly is the
    error of the run unless the row axis was squeezed away, and the file of
    a successful run begins, field by field, with the rows of that regional
    grid. *)
Theorem atlantic_extent_by_reflection (w : Store.world) (pcf : Dataset A) :
  Store.files w !! PARENT_FILE = Some pcf ->
  dim_x pcf <> 1%N ->
  let x_size := Z.of_N (dim_x pcf) in
  let x_mid := x_size / 2 in
  let first := snd PACIFIC_X_INDICES + (x_mid - snd PACIFIC_X_INDICES) * 2 + 1 in
  let last := x_size - fst PACIFIC_X_INDICES + 1 in
  let atl_ext :=
    Extent (fst ATLANTIC_Y_INDICES) (snd ATLANTIC_Y_INDICES) first last in
  first = 2 * x_mid - snd PACIFIC_X_INDICES + 1
  /\ atl_ext = Extent 7350 (-1) (2 * (x_size / 2) - 5899) (x_size - 1499)
  /\ (dim_y pcf <> 1%N ->
      forall err,
        create_dataset axis_slice pcf atl_ext false = Raise err ->
        fst (Store.main axis_slice w) = Raise err)
  /\ (fst (Store.main axis_slice w) = Ok tt ->
      exists atl whole,
        create_dataset axis_slice pcf atl_ext false = Ok atl
        /\ Store.files (snd (Store.main axis_slice w)) !! Store.target_file
           = Some whole
        /\ dim_x whole = dim_x atl
        /\ (dim_y atl <= dim_y whole)%N
        /\ forall v, v ∈ ALL_VARS ->
             exists a o,
               variables atl !! v = Some a
               /\ variables whole !! v = Some o
               /\ shape a = (dim_y atl, dim_x atl)
               /\ ncols o = ncols a
               /\ (nrows a <= nrows o)%N
               /\ forall i j, (i < nrows a)%N -> cell o i j = cell a i j).
Proof.
  intros Hfile Hx x_size x_mid first last atl_ext.
  assert (Hext : atl_ext = atl_extent (dim_x pcf)).
  { subst atl_ext first last x_mid x_size.
    unfold atl_extent, atl_first_xind, atl_last_xind, x_middle.
    rewrite Z.quot_div_nonneg by lia. reflexivity. }
  split; [lia |].
  split; [rewrite Hext; apply atl_extent_closed_form |].
  rewrite Hext. clearbody atl_ext. clear Hext first last x_mid x_size.
  pose proof (main_outcome axis_slice w pcf Hfile) as Hrun.
  destruct (N.eqb_spec (dim_x pcf) 1); [contradiction |].
  split.
  - intros Hy err Hraise.
    destruct (N.eqb_spec (dim_y pcf) 1); [contradiction |].
    rewrite stitched_cases, Hraise in Hrun. tauto.
  - intros Hok.
    destruct (N.eqb_spec (dim_y pcf) 1).
    { destruct Hrun as [Hres _]. rewrite Hres in Hok.
      destruct (bool_decide _); discriminate. }
    rewrite stitched_cases in Hrun.
    destruct (create_dataset axis_slice pcf (atl_extent (dim_x pcf)) false)
      as [atl | err] eqn:Hatl; [| destruct Hrun; congruence].
    destruct (create_dataset axis_slice pcf pac_extent true)
      as [pac | err] eqn:Hpac; [| destruct Hrun; congruence].
    destruct (concat_pair atl pac)
      as [whole | err] eqn:Hwhole; [| destruct Hrun; congruence].
    destruct (bool_decide (is_Some (Store.files w !! TARGET_PATH)));
      [destruct Hrun; congruence |].
    destruct Hrun as (_ & Hfiles & _).
    assert (Hwx : dim_x whole = dim_x atl).
    { revert Hwhole. unfold concat_pair.
      destruct (negb (bool_decide _)); [discriminate |].
      destruct (negb (dim_x atl =? dim_x pac)%N); [discriminate |].
      intros [= <-]. reflexivity. }
    change (xr_concat [atl; pac] = Ok whole) in Hwhole.
    apply xr_concat_two in Hwhole as (_ & Hdy & Hvars).
    exists atl, whole.
    split; [reflexivity |].
    split; [rewrite Hfiles; apply lookup_insert_eq |].
    split; [exact Hwx |]. split; [lia |].
    apply create_dataset_ok in Hatl as (Hatl & _ & Hatl_shape).
    apply create_dataset_ok in Hpac as (Hpac & _ & _).
    intros v Hv.
    destruct (Hatl v Hv) as (a & _ & Ha).
    destruct (Hpac v Hv) as (p & _ & Hp).
    exists a, (vstack a p).
    split; [exact Ha |].
    split; [rewrite Hvars, Ha, Hp; reflexivity |].
    split; [apply (Hatl_shape v a Ha) |].
    split; [reflexivity |].
    split; [cbn; lia |].
    intros i j. apply vstack_upper.
Qed.
End MainExtent.

Lemma atlantic_extent_by_reflection_witness :
  Store.files (sample_world 7600 6000) !! PARENT_FILE
  = Some (sample_grid 7600 6000)
  /\ dim_x (sample_grid 7600 6000) <> 1%N
  /\ fst (Store.main positional_slice (sample_world 7600 6000)) = Ok tt
  /\ exists atl whole,
       create_dataset positional_slice (sample_grid 7600 6000)
                      (Extent 7350 (-1) 101 4501) false = Ok atl
       /\ Store.files (snd (Store.main positional_slice (sample_world 7600 6000)))
            !! Store.target_file = Some whole
       /\ dim_x whole = dim_x atl
       /\ (dim_y atl <= dim_y whole)%N
       /\ forall v, v ∈ ALL_VARS ->
            exists a o,
              variables atl !! v = Some a
              /\ variables whole !! v = Some o
              /\ shape a = (dim_y atl, dim_x atl)
              /\ ncols o = ncols a
              /\ (nrows a <= nrows o)%N
              /\ forall i j, (i < nrows a)%N -> cell o i j = cell a i j.
Proof.
  assert (Hfile : Store.files (sample_world 7600 6000) !! PARENT_FILE
                  = Some (sample_grid 7600 6000)) by (vm_compute; reflexivity).
  assert (Hx : dim_x (sample_grid 7600 6000) <> 1%N) by discriminate.
  assert (Hok : fst (Store.main positional_slice (sample_world 7600 6000))
                = Ok tt) by (vm_compute; reflexivity).
  split; [exact Hfile |]. split; [exact Hx |]. split; [exact Hok |].
  exact (proj2 (proj2 (proj2
           (atlantic_extent_by_reflection positional_slice
              (sample_world 7600 6000) (sample_grid 7600 6000) Hfile Hx)))
           Hok).
Defined.

(** A parent grid of one column: the squeeze removes the column axis and
    [main] raises [KeyError] when it asks for the column count, before any
    extent is computed, although the assembly with the extent of the formula
    would return a regional grid. *)
Lemma atlantic_extent_counterexample :
  Store.files (sample_world 7600 1) !! PARENT_FILE = Some (sample_grid 7600 1)
  /\ dim_x (sample_grid 7600 1) = 1%N
  /\ atl_extent 1 = Extent 7350 (-1) (-5899) (-1498)
  /\ is_ok (create_dataset positional_slice (sample_grid 7600 1)
                           (atl_extent 1) false)
  /\ fst (Store.main positional_slice (sample_world 7600 1))
     = Raise (KeyError "x")
  /\ Store.files (snd (Store.main positional_slice (sample_world 7600 1)))
       !! Store.target_file = None.
Proof.
  split; [vm_compute; reflexivity |].
  split; [reflexivity |].
  split; [vm_compute; reflexivity |].
  split.
  - destruct (create_dataset positional_slice (sample_grid 7600 1)
                             (atl_extent 1) false) as [d | err] eqn:Hd.
    + exists d. reflexivity.
    + vm_compute in Hd. discriminate Hd.
  - split; vm_compute; reflexivity.
Qed.

(** ** Further properties of the assembler *)

Section AssemblerMore.
Context {A : Type}.
Context (axis_slice : N -> Z -> Z -> N * N).

Lemma grid_selector_listed (pcf : Dataset A) v e pac_patch :
  v ∈ ALL_VARS ->
  is_ok (grid_selector axis_slice pcf v e pac_patch)
  <-> is_Some (variables pcf !! v).
Proof.
  intros Hv.
  pose proof (grid_selector_outcome axis_slice pcf v e pac_patch) as Hout.
  destruct (variables pcf !! v) as [field |] eqn:Hfield.
  - split; [eauto |]. intros _.
    destruct Hout as [Hok | Hunbound]; [exact Hok |].
    destruct pac_patch.
    + destruct (all_vars_family v Hv) as [f Hf].
      rewrite (grid_selector_pacific axis_slice pcf v field e f Hfield Hf)
        in Hunbound.
      discriminate.
    + rewrite (grid_selector_atlantic axis_slice pcf v field e Hfield)
        in Hunbound.
      discriminate.
  - split.
    + intros [a Ha]. congruence.
    + intros [field Hfield']. discriminate.
Qed.

Lemma grid_selector_listed_raise (pcf : Dataset A) v e pac_patch err :
  v ∈ ALL_VARS ->
  grid_selector axis_slice pcf v e pac_patch = Raise err ->
  variables pcf !! v = None /\ err = ValueError (not_found v).
Proof.
  intros Hv Herr.
  destruct (variables pcf !! v) as [field |] eqn:Hfield.
  - destruct (proj2 (grid_selector_listed pcf v e pac_patch Hv)) as [a Ha];
      [rewrite Hfield; eauto | congruence].
  - rewrite (grid_selector_absent axis_slice pcf v e pac_patch Hfield) in Herr.
    injection Herr as <-. split; reflexivity.
Qed.

Lemma xr_Dataset_raise (dv : gmap string (ndarray A)) err :
  xr_Dataset dv = Raise err ->
  err = ValueError "conflicting sizes for dimension".
Proof.
  unfold xr_Dataset.
  destruct (map_to_list dv) as [| [k0 a0] l]; [discriminate |].
  destruct (forallb _ _); [discriminate |]. intros [= <-]. reflexivity.
Qed.

Lemma create_dataset_raise_kinds (pcf : Dataset A) e pac_patch err :
  create_dataset axis_slice pcf e pac_patch = Raise err ->
  (exists pre v post,
      ALL_VARS = pre ++ v :: post
      /\ (forall u, u ∈ pre -> is_Some (variables pcf !! u))
      /\ variables pcf !! v = None
      /\ err = ValueError (not_found v))
  \/ (complete pcf /\ err = ValueError "conflicting sizes for dimension").
Proof.
  unfold create_dataset.
  destruct (fill_data_vars_outcome axis_slice pcf e pac_patch ALL_VARS ∅)
    as [[dv Hdv] | (pre & v & post & err' & Hsplit & Hpre & Hv & Hfill)].
  - rewrite Hdv. cbn. intros Hraise. right. split.
    + intros v Hv. apply fill_data_vars_ok in Hdv as [Hin _].
      destruct (Hin v Hv) as (a & Ha & _).
      apply (grid_selector_listed pcf v e pac_patch Hv). exists a. exact Ha.
    + apply (xr_Dataset_raise dv). exact Hraise.
  - rewrite Hfill. cbn. intros [= <-]. left.
    assert (Hvin : v ∈ ALL_VARS).
    { rewrite Hsplit. apply elem_of_app. right. apply elem_of_cons. by left. }
    destruct (grid_selector_listed_raise pcf v e pac_patch err' Hvin Hv)
      as [Habsent ->].
    exists pre, v, post. repeat split; try assumption.
    intros u Hu. apply (grid_selector_listed pcf u e pac_patch).
    + rewrite Hsplit. apply elem_of_app. by left.
    + apply Hpre, Hu.
Qed.

(** X4: the assembler fails in two ways only.  Either a configured name is
    absent from the parent grid, and the error is the unknown-field error for
    the first absent name in the order of the four lists, or every
    configured name is present and the arrays disagree in size.  The unbound
    [grid_array] of the selector is never reached from the assembler. *)
Theorem create_dataset_errors (pcf : Dataset A) (e : extent) (pac_patch : bool)
    (err : exception) :
  create_dataset axis_slice pcf e pac_patch = Raise err ->
  ((exists pre v post,
      ALL_VARS = pre ++ v :: post
      /\ (forall u, u ∈ pre -> is_Some (variables pcf !! u))
      /\ variables pcf !! v = None
      /\ err = ValueError (not_found v))
   \/ (complete pcf /\ err = ValueError "conflicting sizes for dimension"))
  /\ forall name, err <> UnboundLocalError name.
Proof.
  intros Herr.
  pose proof (create_dataset_raise_kinds pcf e pac_patch err Herr) as Hkinds.
  split; [exact Hkinds |].
  intros name ->.
  destruct Hkinds as [(pre & v & post & _ & _ & _ & Hbad) | [_ Hbad]];
    discriminate.
Qed.

Lemma create_dataset_window_dims (pcf : Dataset A) e pac_patch d :
  uniform pcf ->
  create_dataset axis_slice pcf e pac_patch = Ok d ->
  (dim_y d, dim_x d)
  = (snd (axis_slice (dim_y pcf) (y_min e) (y_max e)),
     snd (axis_slice (dim_x pcf) (x_min e) (x_max e))).
Proof.
  intros Huniform Hd.
  apply create_dataset_ok in Hd as (Hin & _ & Hshape).
  assert (Hnav : "nav_lon" ∈ ALL_VARS) by decide_closed.
  destruct (Hin _ Hnav) as (a & Hsel & Ha).
  rewrite <- (Hshape _ _ Ha).
  destruct (variables pcf !! "nav_lon") as [field |] eqn:Hfield.
  - pose proof (Huniform _ _ Hfield) as [= Hr Hc].
    destruct pac_patch.
    + assert (Hc' : "nav_lon" ∈ family_vars Center) by decide_closed.
      rewrite (grid_selector_pacific axis_slice pcf _ field e Center Hfield Hc')
        in Hsel.
      injection Hsel as <-. rewrite np_flip_shape.
      unfold sel_extent. cbn [family_window]. rewrite sel_shape, Hr, Hc.
      reflexivity.
    + rewrite (grid_selector_atlantic axis_slice pcf _ field e Hfield) in Hsel.
      injection Hsel as <-. unfold sel_extent. rewrite sel_shape, Hr, Hc.
      reflexivity.
  - rewrite (grid_selector_absent axis_slice pcf _ e pac_patch Hfield) in Hsel.
    discriminate.
Qed.

(** X5: on a parent grid whose fields all have the grid's shape, the
    collection returned by the assembler has the size of the window of the
    extent itself, with either setting of the switch: its row count is the
    length of the row window and its column count the length of the column
    window, and every field has exactly that shape. *)
Theorem create_dataset_dims (pcf : Dataset A) (e : extent) (pac_patch : bool)
    (d : Dataset A) :
  uniform pcf ->
  create_dataset axis_slice pcf e pac_patch = Ok d ->
  dim_y d = snd (axis_slice (dim_y pcf) (y_min e) (y_max e))
  /\ dim_x d = snd (axis_slice (dim_x pcf) (x_min e) (x_max e))
  /\ forall v a,
       variables d !! v = Some a ->
       shape a = (snd (axis_slice (dim_y pcf) (y_min e) (y_max e)),
                  snd (axis_slice (dim_x pcf) (x_min e) (x_max e))).
Proof.
  intros Huniform Hd.
  pose proof (create_dataset_window_dims pcf e pac_patch d Huniform Hd)
    as [= Hy Hx].
  apply create_dataset_ok in Hd as (_ & _ & Hshape).
  split; [exact Hy |]. split; [exact Hx |].
  intros v a Ha. rewrite (Hshape v a Ha), Hy, Hx. reflexivity.
Qed.

Lemma create_dataset_pacific_ok_iff (pcf : Dataset A) e :
  complete pcf ->
  uniform pcf ->
  is_ok (create_dataset axis_slice pcf e true)
  <-> shift_stable axis_slice (dim_y pcf) (y_min e) (y_max e)
      /\ shift_stable axis_slice (dim_x pcf) (x_min e) (x_max e).
Proof.
  intros Hcomplete Huniform. split.
  - intros [d Hd].
    pose proof (create_dataset_window_dims pcf e true d Huniform Hd) as Hdims.
    apply create_dataset_ok in Hd as (Hin & _ & Hshape).
    assert (Hglamf : "glamf" ∈ ALL_VARS) by decide_closed.
    destruct (Hin _ Hglamf) as (a & Hsel & Ha).
    destruct (Hcomplete _ Hglamf) as [field Hfield].
    assert (Hcorner : "glamf" ∈ family_vars Corner) by decide_closed.
    rewrite (grid_selector_pacific axis_slice pcf _ field e Corner Hfield
               Hcorner) in Hsel.
    injection Hsel as <-. apply Hshape in Ha. rewrite Hdims in Ha.
    rewrite np_flip_shape in Ha. unfold sel_extent in Ha.
    cbn [family_window y_min y_max x_min x_max] in Ha.
    rewrite sel_shape in Ha.
    pose proof (Huniform _ _ Hfield) as [= Hr Hc]. rewrite Hr, Hc in Ha.
    injection Ha as Hy Hx. split; assumption.
  - intros [Hy Hx]. apply create_dataset_total; auto.
Qed.

Lemma create_dataset_pacific_conflict (pcf : Dataset A) e :
  complete pcf ->
  uniform pcf ->
  ~ (shift_stable axis_slice (dim_y pcf) (y_min e) (y_max e)
     /\ shift_stable axis_slice (dim_x pcf) (x_min e) (x_max e)) ->
  create_dataset axis_slice pcf e true
  = Raise (ValueError "conflicting sizes for dimension").
Proof.
  intros Hcomplete Huniform Hunstable.
  destruct (create_dataset axis_slice pcf e true) as [d | err] eqn:Hd.
  - exfalso.
    apply Hunstable, (create_dataset_pacific_ok_iff pcf e Hcomplete Huniform).
    rewrite Hd. exists d. reflexivity.
  - destruct (create_dataset_raise_kinds pcf e true err Hd)
      as [(pre & v & post & Hsplit & _ & Habsent & _) | [_ ->]];
      [| reflexivity].
    destruct (Hcomplete v) as [field Hfield]; [| congruence].
    rewrite Hsplit. apply elem_of_app. right. apply elem_of_cons. by left.
Qed.

(** X6: on a parent grid that holds every configured field with the grid's
    shape, the assembler with the Pacific switch set returns a collection
    exactly when the row window and the column window keep their length
    when both bounds are lowered by one; otherwise it raises the size
    conflict. *)
Theorem create_dataset_pacific_iff (pcf : Dataset A) (e : extent) :
  complete pcf ->
  uniform pcf ->
  (is_ok (create_dataset axis_slice pcf e true)
   <-> shift_stable axis_slice (dim_y pcf) (y_min e) (y_max e)
       /\ shift_stable axis_slice (dim_x pcf) (x_min e) (x_max e))
  /\ (~ (shift_stable axis_slice (dim_y pcf) (y_min e) (y_max e)
         /\ shift_stable axis_slice (dim_x pcf) (x_min e) (x_max e)) ->
      create_dataset axis_slice pcf e true
      = Raise (ValueError "conflicting sizes for dimension")).
Proof.
  intros Hcomplete Huniform. split.
  - apply create_dataset_pacific_ok_iff; assumption.
  - intros Hunstable. apply create_dataset_pacific_conflict; assumption.
Qed.

Lemma grid_selector_agree (pcf1 pcf2 : Dataset A) v e pac_patch :
  variables pcf1 !! v = variables pcf2 !! v ->
  grid_selector axis_slice pcf1 v e pac_patch
  = grid_selector axis_slice pcf2 v e pac_patch.
Proof. intros H. unfold grid_selector. rewrite H. reflexivity. Qed.

Lemma fill_data_vars_agree (pcf1 pcf2 : Dataset A) e pac_patch vars acc :
  (forall v, v ∈ vars -> variables pcf1 !! v = variables pcf2 !! v) ->
  fill_data_vars axis_slice pcf1 e pac_patch vars acc
  = fill_data_vars axis_slice pcf2 e pac_patch vars acc.
Proof.
  revert acc. induction vars as [| var rest IH]; intros acc Hagree.
  - reflexivity.
  - cbn [fill_data_vars].
    rewrite (grid_selector_agree pcf1 pcf2 var e pac_patch)
      by (apply Hagree, elem_of_cons; by left).
    destruct (grid_selector axis_slice pcf2 var e pac_patch); [| reflexivity].
    cbn. apply IH. intros v Hv. apply Hagree, elem_of_cons. by right.
Qed.

(** X7: under one slicing rule, that is for two parent grids that both
    carry or both lack coordinate labels, the assembler reads nothing but
    the configured fields: two such grids that agree on these fields give
    the same outcome, the same regional grid or the same error, whatever
    other data variables they hold. *)
Theorem create_dataset_reads_configured_only (pcf1 pcf2 : Dataset A)
    (e : extent) (pac_patch : bool) :
  (forall v, v ∈ ALL_VARS -> variables pcf1 !! v = variables pcf2 !! v) ->
  create_dataset axis_slice pcf1 e pac_patch
  = create_dataset axis_slice pcf2 e pac_patch.
Proof.
  intros Hagree. unfold create_dataset.
  rewrite (fill_data_vars_agree pcf1 pcf2 e pac_patch ALL_VARS ∅ Hagree).
  reflexivity.
Qed.
End AssemblerMore.

(** ** Further properties of the selector *)

Lemma positional_in_axis : in_axis positional_slice.
Proof.
  intros n lo hi. unfold positional_slice, clamp_index. cbn [fst snd].
  destruct (Z.ltb_spec lo 0), (Z.ltb_spec hi 0); lia.
Qed.

Lemma label_in_axis : in_axis label_slice.
Proof. intros n lo hi. unfold label_slice. cbn [fst snd]. lia. Qed.

Lemma rev_map_rev_involutive {A : Type} (l : list (list A)) :
  rev (map (@rev A) (rev (map (@rev A) l))) = l.
Proof.
  rewrite map_rev, rev_involutive, map_map.
  rewrite <- (map_id l) at 2. apply map_ext. intros r. apply rev_involutive.
Qed.

Section SelectorMore.
Context {A : Type}.
Context (axis_slice : N -> Z -> Z -> N * N).

Lemma grid_selector_ok_form (pcf : Dataset A) var field e pac_patch r :
  variables pcf !! var = Some field ->
  grid_selector axis_slice pcf var e pac_patch = Ok r ->
  exists y0 y1 x0 x1,
    r = sel axis_slice field y0 y1 x0 x1
    \/ r = np_flip (sel axis_slice field y0 y1 x0 x1).
Proof.
  intros Hvar. unfold grid_selector. rewrite Hvar.
  destruct pac_patch; repeat case_decide; intros [= <-]; eauto 10.
Qed.

(** X8: bounds that reach outside the field are cut back to it and never
    read outside it.  Under a slicing rule that stays within the axis, as
    the positional and the label rule both do, the array returned by the
    selector is no larger than the field, and each of its entries is the
    entry of the field at some valid row and column, with either setting of
    the switch. *)
Theorem grid_selector_stays_inside_field (pcf : Dataset A) (var : string)
    (field : ndarray A) (e : extent) (pac_patch : bool) (r : ndarray A) :
  in_axis axis_slice ->
  variables pcf !! var = Some field ->
  grid_selector axis_slice pcf var e pac_patch = Ok r ->
  (nrows r <= nrows field)%N
  /\ (ncols r <= ncols field)%N
  /\ forall i j,
       (i < nrows r)%N -> (j < ncols r)%N ->
       exists i' j',
         (i' < nrows field)%N /\ (j' < ncols field)%N
         /\ cell r i j = cell field i' j'.
Proof.
  intros Hin Hvar Hr.
  destruct (grid_selector_ok_form pcf var field e pac_patch r Hvar Hr)
    as (y0 & y1 & x0 & x1 & Hform).
  pose proof (Hin (nrows field) y0 y1) as Hrows.
  pose proof (Hin (ncols field) x0 x1) as Hcols.
  assert (Hshape : shape r
                   = (snd (axis_slice (nrows field) y0 y1),
                      snd (axis_slice (ncols field) x0 x1))).
  { destruct Hform as [-> | ->]; [| rewrite np_flip_shape]; apply sel_shape. }
  injection Hshape as Hnr Hnc.
  split; [lia |]. split; [lia |].
  intros i j Hi Hj. destruct Hform as [-> | ->].
  - exists (fst (axis_slice (nrows field) y0 y1) + i)%N,
           (fst (axis_slice (ncols field) x0 x1) + j)%N.
    split; [lia |]. split; [lia |]. apply sel_cell.
  - rewrite np_flip_cell, sel_cell.
    set (w := sel axis_slice field y0 y1 x0 x1) in *.
    exists (fst (axis_slice (nrows field) y0 y1) + (nrows w - 1 - i))%N,
           (fst (axis_slice (ncols field) x0 x1) + (ncols w - 1 - j))%N.
    cbn [np_flip nrows ncols] in Hnr, Hnc, Hi, Hj.
    split; [lia |]. split; [lia |]. reflexivity.
Qed.

(** X9: the mirroring loses nothing: flipping the Pacific selection of a
    listed field once more gives back the window of its family, row by
    row. *)
Theorem pacific_flip_round_trip (pcf : Dataset A) (var : string)
    (field : ndarray A) (e : extent) (f : family) :
  variables pcf !! var = Some field ->
  var ∈ family_vars f ->
  exists r,
    grid_selector axis_slice pcf var e true = Ok r
    /\ to_lists (np_flip r)
       = to_lists (sel_extent axis_slice field (family_window f e)).
Proof.
  intros Hvar Hf.
  exists (np_flip (sel_extent axis_slice field (family_window f e))).
  split; [apply grid_selector_pacific; assumption |].
  rewrite !to_lists_np_flip. apply rev_map_rev_involutive.
Qed.
End SelectorMore.

(** ** The assembler over the store *)

Section StoreMore.
Context {A : Type}.
Context (axis_slice : N -> Z -> Z -> N * N).

(** X10: the assembler changes nothing that exists.  In a world whose next
    reference is unused, a successful call returns that reference, stores the
    assembled collection there, and leaves every other object, the parent
    grid included, and all files and directories as they were; a failing
    call leaves the whole world as it was. *)
Theorem store_create_dataset_frame (w : Store.world) (pcf : N)
    (ds : Dataset A) (e : extent) (pac_patch : bool) :
  heap_fresh w ->
  Store.heap w !! pcf = Some ds ->
  match create_dataset axis_slice ds e pac_patch with
  | Ok d =>
      fst (Store.create_dataset axis_slice pcf e pac_patch w)
      = Ok (Store.next_ref w)
      /\ Store.heap w !! Store.next_ref w = None
      /\ Store.heap (snd (Store.create_dataset axis_slice pcf e pac_patch w))
         = <[Store.next_ref w := d]> (Store.heap w)
      /\ Store.heap (snd (Store.create_dataset axis_slice pcf e pac_patch w))
           !! pcf = Some ds
      /\ Store.files (snd (Store.create_dataset axis_slice pcf e pac_patch w))
         = Store.files w
      /\ Store.dirs (snd (Store.create_dataset axis_slice pcf e pac_patch w))
         = Store.dirs w
      /\ heap_fresh (snd (Store.create_dataset axis_slice pcf e pac_patch w))
  | Raise err =>
      Store.create_dataset axis_slice pcf e pac_patch w = (Raise err, w)
  end.
Proof.
  intros Hfresh Hpcf.
  rewrite (store_create_dataset_run axis_slice w pcf ds e pac_patch Hpcf).
  destruct (create_dataset axis_slice ds e pac_patch) as [d | err];
    [| reflexivity].
  rewrite alloc_heap. cbn [fst snd Store.heap Store.files Store.dirs].
  assert (Hnew : Store.heap w !! Store.next_ref w = None)
    by (apply Hfresh; lia).
  repeat split; try assumption.
  - rewrite lookup_insert_ne by congruence. exact Hpcf.
  - intros r Hr. cbn [Store.next_ref Store.heap] in *.
    rewrite lookup_insert_ne by lia. apply Hfresh. lia.
Qed.
End StoreMore.

(** ** When [main] succeeds *)

Section MainDomain.
Context {A : Type}.
Context (axis_slice : N -> Z -> Z -> N * N).

(** The stitched dataset of a complete and uniform parent grid: the Pacific
    assembly needs windows that keep their length under the shift, the
    concatenation needs equal column counts. *)
Lemma stitched_outcome (pcf : Dataset A) :
  complete pcf ->
  uniform pcf ->
  match stitched axis_slice pcf with
  | Ok whole =>
      (shift_stable axis_slice (dim_y pcf) (y_min pac_extent) (y_max pac_extent)
       /\ shift_stable axis_slice (dim_x pcf)
                       (x_min pac_extent) (x_max pac_extent)
       /\ snd (axis_slice (dim_x pcf) (x_min (atl_extent (dim_x pcf)))
                          (x_max (atl_extent (dim_x pcf))))
          = snd (axis_slice (dim_x pcf) (x_min pac_extent) (x_max pac_extent)))
      /\ dim_x whole
         = snd (axis_slice (dim_x pcf) (x_min pac_extent) (x_max pac_extent))
      /\ dim_y whole
         = (snd (axis_slice (dim_y pcf) (y_min (atl_extent (dim_x pcf)))
                            (y_max (atl_extent (dim_x pcf))))
            + snd (axis_slice (dim_y pcf)
                              (y_min pac_extent) (y_max pac_extent)))%N
  | Raise err =>
      (~ (shift_stable axis_slice (dim_y pcf)
                       (y_min pac_extent) (y_max pac_extent)
          /\ shift_stable axis_slice (dim_x pcf)
                          (x_min pac_extent) (x_max pac_extent))
       /\ err = ValueError "conflicting sizes for dimension")
      \/ (shift_stable axis_slice (dim_y pcf)
                       (y_min pac_extent) (y_max pac_extent)
          /\ shift_stable axis_slice (dim_x pcf)
                          (x_min pac_extent) (x_max pac_extent)
          /\ snd (axis_slice (dim_x pcf) (x_min (atl_extent (dim_x pcf)))
                             (x_max (atl_extent (dim_x pcf))))
             <> snd (axis_slice (dim_x pcf)
                                (x_min pac_extent) (x_max pac_extent))
          /\ err = AlignmentError "x")
  end.
Proof.
  intros Hcomplete Huniform. rewrite stitched_cases.
  destruct (create_dataset_total axis_slice pcf (atl_extent (dim_x pcf)) false
              Hcomplete Huniform ltac:(discriminate)) as [atl Hatl].
  rewrite Hatl.
  pose proof (create_dataset_pacific_ok_iff axis_slice pcf pac_extent
                Hcomplete Huniform) as Hiff.
  pose proof (create_dataset_pacific_conflict axis_slice pcf pac_extent
                Hcomplete Huniform) as Hraise.
  pose proof (create_dataset_window_dims axis_slice pcf _ false atl
                Huniform Hatl) as Hadims.
  apply pair_equal_spec in Hadims as [Hay Hax].
  destruct (create_dataset axis_slice pcf pac_extent true)
    as [pac | err] eqn:Hpac.
  - destruct (proj1 Hiff ltac:(eexists; reflexivity)) as [Hy Hx].
    pose proof (create_dataset_window_dims axis_slice pcf _ true pac
                  Huniform Hpac) as Hpdims.
    apply pair_equal_spec in Hpdims as [Hpy Hpx].
    unfold concat_pair.
    rewrite bool_decide_true.
    2:{ rewrite (proj1 (create_dataset_names axis_slice pcf _ _ atl Hatl)).
        rewrite (proj1 (create_dataset_names axis_slice pcf _ _ pac Hpac)).
        reflexivity. }
    cbn [negb].
    destruct (dim_x atl =? dim_x pac)%N eqn:Heq; cbn [negb].
    + apply N.eqb_eq in Heq. cbn [dim_x dim_y].
      repeat split; try assumption; congruence.
    + apply N.eqb_neq in Heq. right.
      repeat split; try assumption. congruence.
  - left. split; [| specialize (Hraise ltac:(intros Hs;
                      destruct (proj2 Hiff Hs) as [d Hd]; discriminate));
                    congruence].
    intros Hs. destruct (proj2 Hiff Hs) as [d Hd]. discriminate.
Qed.

(** X12: for a parent grid that holds every configured field with the
    grid's shape, in a world where the target directory is no regular file
    and the target file no directory, [main] succeeds exactly when neither
    axis of the grid has length one, the Pacific row window and column window
    keep their length under the shift by one, and the Atlantic column window
    is as long as the Pacific one.  The file it then writes has the Pacific
    column count and the Atlantic plus the Pacific row count.  Otherwise it
    raises [KeyError] for an axis of length one, the size conflict of the
    Pacific assembly, or the alignment error of the concatenation. *)
Theorem main_success_criterion (w : Store.world) (pcf : Dataset A) :
  complete pcf ->
  uniform pcf ->
  Store.files w !! PARENT_FILE = Some pcf ->
  Store.files w !! TARGET_PATH = None ->
  Store.target_file ∉ Store.dirs w ->
  (fst (Store.main axis_slice w) = Ok tt
   <-> dim_x pcf <> 1%N /\ dim_y pcf <> 1%N
       /\ shift_stable axis_slice (dim_y pcf)
                       (y_min pac_extent) (y_max pac_extent)
       /\ shift_stable axis_slice (dim_x pcf)
                       (x_min pac_extent) (x_max pac_extent)
       /\ snd (axis_slice (dim_x pcf) (x_min (atl_extent (dim_x pcf)))
                          (x_max (atl_extent (dim_x pcf))))
          = snd (axis_slice (dim_x pcf) (x_min pac_extent) (x_max pac_extent)))
  /\ (fst (Store.main axis_slice w) = Ok tt ->
      exists whole,
        Store.files (snd (Store.main axis_slice w)) !! Store.target_file
        = Some whole
        /\ dim_x whole
           = snd (axis_slice (dim_x pcf) (x_min pac_extent) (x_max pac_extent))
        /\ dim_y whole
           = (snd (axis_slice (dim_y pcf) (y_min (atl_extent (dim_x pcf)))
                              (y_max (atl_extent (dim_x pcf))))
              + snd (axis_slice (dim_y pcf)
                                (y_min pac_extent) (y_max pac_extent)))%N)
  /\ (dim_x pcf = 1%N -> fst (Store.main axis_slice w) = Raise (KeyError "x"))
  /\ (dim_x pcf <> 1%N -> dim_y pcf = 1%N ->
      fst (Store.main axis_slice w) = Raise (KeyError "y"))
  /\ (dim_x pcf <> 1%N -> dim_y pcf <> 1%N ->
      ~ (shift_stable axis_slice (dim_y pcf)
                      (y_min pac_extent) (y_max pac_extent)
         /\ shift_stable axis_slice (dim_x pcf)
                         (x_min pac_extent) (x_max pac_extent)) ->
      fst (Store.main axis_slice w)
      = Raise (ValueError "conflicting sizes for dimension"))
  /\ (dim_x pcf <> 1%N -> dim_y pcf <> 1%N ->
      shift_stable axis_slice (dim_y pcf) (y_min pac_extent) (y_max pac_extent) ->
      shift_stable axis_slice (dim_x pcf) (x_min pac_extent) (x_max pac_extent) ->
      snd (axis_slice (dim_x pcf) (x_min (atl_extent (dim_x pcf)))
                      (x_max (atl_extent (dim_x pcf))))
      <> snd (axis_slice (dim_x pcf) (x_min pac_extent) (x_max pac_extent)) ->
      fst (Store.main axis_slice w) = Raise (AlignmentError "x")).
Proof.
  intros Hcomplete Huniform Hfile Htarget _.
  pose proof (main_outcome axis_slice w pcf Hfile) as Hrun.
  pose proof (stitched_outcome pcf Hcomplete Huniform) as Hst.
  assert (Hnav : is_Some (variables pcf !! "nav_lon"))
    by (apply Hcomplete; decide_closed).
  rewrite (bool_decide_true _ Hnav) in Hrun.
  rewrite Htarget in Hrun.
  rewrite bool_decide_false in Hrun by (intros [? ?]; discriminate).
  destruct (N.eqb_spec (dim_x pcf) 1) as [Hx1 | Hx1].
  { destruct Hrun as (Hres & _). rewrite Hres.
    split; [split; [discriminate | tauto] |].
    split; [discriminate |]. repeat split; tauto. }
  destruct (N.eqb_spec (dim_y pcf) 1) as [Hy1 | Hy1].
  { destruct Hrun as (Hres & _). rewrite Hres.
    split; [split; [discriminate | tauto] |].
    split; [discriminate |]. repeat split; tauto. }
  destruct (stitched axis_slice pcf) as [whole | err].
  - destruct Hrun as (Hres & Hfiles & _). destruct Hst as (Hcrit & Hdx & Hdy).
    rewrite Hres, Hfiles.
    split; [split; [intros _; tauto | reflexivity] |].
    split.
    { intros _. exists whole. split; [apply lookup_insert_eq |].
      split; assumption. }
    repeat split; tauto.
  - destruct Hrun as (Hres & _). rewrite Hres.
    split; [split; [discriminate |] |].
    + intros (_ & _ & Hy & Hx & Hw). exfalso.
      destruct Hst as [[Hno _] | (_ & _ & Hne & _)]; [apply Hno | apply Hne];
        tauto.
    + split; [discriminate |].
      split; [tauto |]. split; [tauto |]. split.
      * intros _ _ Hno.
        destruct Hst as [[_ ->] | (Hy & Hx & _)]; [reflexivity | tauto].
      * intros _ _ Hy Hx Hne.
        destruct Hst as [[Hno _] | (_ & _ & _ & ->)]; [tauto | reflexivity].
Qed.
End MainDomain.

(** The criterion of [main] under positional slicing, as arithmetic on the
    number of columns. *)
Lemma positional_rows_stable (n : N) :
  shift_stable positional_slice n (y_min pac_extent) (y_max pac_extent).
Proof.
  unfold shift_stable, positional_slice, clamp_index, pac_extent.
  cbn [y_min y_max snd fst PACIFIC_Y_INDICES].
  change (7550 - 1) with 7549. change (-2 - 1) with (-3).
  change (7549 <? 0) with false. change (7550 <? 0) with false.
  change (-3 <? 0) with true. change (-2 <? 0) with true.
  cbn iota. lia.
Qed.

Lemma positional_columns_criterion (n : N) :
  (shift_stable positional_slice n (x_min pac_extent) (x_max pac_extent)
   /\ snd (positional_slice n (x_min (atl_extent n)) (x_max (atl_extent n)))
      = snd (positional_slice n (x_min pac_extent) (x_max pac_extent)))
  <-> (5900 <= Z.of_N n /\ Z.of_N n mod 2 = 0) \/ n = 1499%N \/ (n <= 749)%N.
Proof.
  assert (Hmid : x_middle n = Z.of_N n / 2).
  { unfold x_middle. apply Z.quot_div_nonneg; lia. }
  pose proof (Z.div_mod (Z.of_N n) 2 ltac:(lia)) as Hdiv.
  pose proof (Z.mod_pos_bound (Z.of_N n) 2 ltac:(lia)) as Hmod.
  unfold shift_stable, positional_slice, clamp_index, pac_extent, atl_extent,
    atl_first_xind, atl_last_xind.
  cbn [x_min x_max snd fst PACIFIC_X_INDICES]. rewrite Hmid.
  change (1500 - 1) with 1499. change (5900 - 1) with 5899.
  change (1499 <? 0) with false. change (1500 <? 0) with false.
  change (5899 <? 0) with false. change (5900 <? 0) with false.
  cbn iota.
  destruct (Z.ltb_spec (5900 + (Z.of_N n / 2 - 5900) * 2 + 1) 0),
           (Z.ltb_spec (Z.of_N n - 1500 + 1) 0); lia.
Qed.

Lemma positional_columns_wide (n : N) :
  5900 <= Z.of_N n ->
  shift_stable positional_slice n (x_min pac_extent) (x_max pac_extent)
  /\ snd (positional_slice n (x_min pac_extent) (x_max pac_extent)) = 4400%N
  /\ Z.of_N (snd (positional_slice n (x_min (atl_extent n))
                                   (x_max (atl_extent n))))
     = 4400 + Z.of_N n mod 2.
Proof.
  intros Hn.
  assert (Hmid : x_middle n = Z.of_N n / 2).
  { unfold x_middle. apply Z.quot_div_nonneg; lia. }
  pose proof (Z.div_mod (Z.of_N n) 2 ltac:(lia)) as Hdiv.
  pose proof (Z.mod_pos_bound (Z.of_N n) 2 ltac:(lia)) as Hmod.
  unfold shift_stable, positional_slice, clamp_index, pac_extent, atl_extent,
    atl_first_xind, atl_last_xind.
  cbn [x_min x_max snd fst PACIFIC_X_INDICES]. rewrite Hmid.
  change (1500 - 1) with 1499. change (5900 - 1) with 5899.
  change (1499 <? 0) with false. change (1500 <? 0) with false.
  change (5899 <? 0) with false. change (5900 <? 0) with false.
  cbn iota.
  destruct (Z.ltb_spec (5900 + (Z.of_N n / 2 - 5900) * 2 + 1) 0),
           (Z.ltb_spec (Z.of_N n - 1500 + 1) 0); lia.
Qed.

Section MainPositional.
Context {A : Type}.

(** X13: cut by position, as on a parent file without coordinate labels,
    [main] succeeds on a parent grid that holds every configured field with
    the grid's shape, in a world where the target directory is no regular
    file and the target file no directory, exactly when neither axis has
    length one and the number of columns is even and at least 5900, or is
    1499 or at most 749, in which last two cases every column window is
    empty.  From 5900 columns on the Pacific regional grid has 4400 columns
    and the Atlantic one 4400 for an even and 4401 for an odd number of
    columns, so that with an odd number of columns the concatenation raises
    the alignment error.  On success the written grid has the rows 7350 up
    to the last but one followed by the rows 7550 up to the last but two. *)
Theorem main_positional_domain (w : Store.world) (pcf : Dataset A) :
  complete pcf ->
  uniform pcf ->
  Store.files w !! PARENT_FILE = Some pcf ->
  Store.files w !! TARGET_PATH = None ->
  Store.target_file ∉ Store.dirs w ->
  (fst (Store.main positional_slice w) = Ok tt
   <-> dim_x pcf <> 1%N /\ dim_y pcf <> 1%N
       /\ ((5900 <= Z.of_N (dim_x pcf) /\ Z.of_N (dim_x pcf) mod 2 = 0)
           \/ dim_x pcf = 1499%N \/ (dim_x pcf <= 749)%N))
  /\ (fst (Store.main positional_slice w) = Ok tt ->
      exists whole,
        Store.files (snd (Store.main positional_slice w)) !! Store.target_file
        = Some whole
        /\ dim_y whole
           = (Z.to_N (Z.of_N (dim_y pcf) - 7351)
              + Z.to_N (Z.of_N (dim_y pcf) - 7552))%N
        /\ dim_x whole = if (5900 <=? dim_x pcf)%N then 4400%N else 0%N)
  /\ (5900 <= Z.of_N (dim_x pcf) -> dim_y pcf <> 1%N ->
      Z.of_N (dim_x pcf) mod 2 = 1 ->
      fst (Store.main positional_slice w) = Raise (AlignmentError "x")).
Proof.
  intros Hcomplete Huniform Hfile Htarget _.
  pose proof (main_outcome positional_slice w pcf Hfile) as Hrun.
  pose proof (stitched_outcome positional_slice pcf Hcomplete Huniform) as Hst.
  pose proof (positional_rows_stable (dim_y pcf)) as Hrows.
  pose proof (positional_columns_criterion (dim_x pcf)) as Hcols.
  assert (Hnav : is_Some (variables pcf !! "nav_lon"))
    by (apply Hcomplete; decide_closed).
  rewrite (bool_decide_true _ Hnav) in Hrun.
  rewrite Htarget in Hrun.
  rewrite bool_decide_false in Hrun by (intros [? ?]; discriminate).
  destruct (N.eqb_spec (dim_x pcf) 1) as [Hx1 | Hx1].
  { destruct Hrun as (Hres & _). rewrite Hres.
    split; [split; [discriminate | tauto] |].
    split; [discriminate | lia]. }
  destruct (N.eqb_spec (dim_y pcf) 1) as [Hy1 | Hy1].
  { destruct Hrun as (Hres & _). rewrite Hres.
    split; [split; [discriminate | tauto] |].
    split; [discriminate | tauto]. }
  destruct (stitched positional_slice pcf) as [whole | err].
  - destruct Hrun as (Hres & Hfiles & _).
    destruct Hst as ((_ & Hx & Hwidth) & Hdx & Hdy).
    pose proof (proj1 Hcols (conj Hx Hwidth)) as Hn.
    rewrite Hres, Hfiles.
    split; [split; [intros _; tauto | reflexivity] |].
    split.
    + intros _. exists whole. split; [apply lookup_insert_eq |]. split.
      * rewrite Hdy. clear.
        unfold positional_slice, clamp_index, atl_extent, pac_extent.
        cbn [y_min y_max snd fst ATLANTIC_Y_INDICES PACIFIC_Y_INDICES].
        change (7350 <? 0) with false. change (7550 <? 0) with false.
        change (-1 <? 0) with true. change (-2 <? 0) with true.
        cbn iota. lia.
      * rewrite Hdx. clear -Hn.
        unfold positional_slice, clamp_index, pac_extent.
        cbn [x_min x_max snd fst PACIFIC_X_INDICES].
        change (1500 <? 0) with false. change (5900 <? 0) with false.
        cbn iota. destruct (N.leb_spec 5900 (dim_x pcf)); lia.
    + intros Hwide _ Hodd. exfalso.
      destruct Hn as [[_ Heven] | [Hn | Hn]]; lia.
  - destruct Hrun as (Hres & _). rewrite Hres.
    split; [split; [discriminate |] |].
    + intros (_ & _ & Hn). apply Hcols in Hn as [Hx Hwidth]. exfalso.
      destruct Hst as [[Hno _] | (_ & _ & Hne & _)]; [apply Hno | apply Hne];
        tauto.
    + split; [discriminate |]. intros Hwide _ Hodd.
      destruct (positional_columns_wide (dim_x pcf) Hwide) as (Hx & _ & _).
      destruct Hst as [[Hno _] | (_ & _ & _ & ->)]; [| reflexivity].
      exfalso. apply Hno. split; assumption.
Qed.
End MainPositional.

(** ** Instances of the further properties *)

Lemma main_failure_leaves_files_witness :
  fst (Store.main positional_slice loaded_world)
  = Raise (FileNotFoundError PARENT_FILE)
  /\ Store.files (snd (Store.main positional_slice loaded_world))
     = Store.files loaded_world
  /\ Store.dirs (snd (Store.main positional_slice loaded_world))
     = Store.dirs loaded_world.
Proof.
  assert (Herr : fst (Store.main positional_slice loaded_world)
                 = Raise (FileNotFoundError PARENT_FILE))
    by (vm_compute; reflexivity).
  split; [exact Herr |].
  destruct (main_failure_leaves_files positional_slice loaded_world _ Herr)
    as (Hfiles & Hdirs & _).
  split; assumption.
Defined.

Lemma main_success_touches_target_only_witness :
  Store.files (sample_world 7600 6000) !! PARENT_FILE
  = Some (sample_grid 7600 6000)
  /\ fst (Store.main positional_slice (sample_world 7600 6000)) = Ok tt
  /\ Store.files (snd (Store.main positional_slice (sample_world 7600 6000)))
       !! PARENT_FILE = Some (sample_grid 7600 6000)
  /\ TARGET_PATH
     ∈ Store.dirs (snd (Store.main positional_slice (sample_world 7600 6000)))
  /\ Store.files (snd (Store.main positional_slice (sample_world 7600 6000)))
       !! TARGET_PATH = None.
Proof.
  assert (Hfile : Store.files (sample_world 7600 6000) !! PARENT_FILE
                  = Some (sample_grid 7600 6000)) by (vm_compute; reflexivity).
  assert (Hok : fst (Store.main positional_slice (sample_world 7600 6000))
                = Ok tt) by (vm_compute; reflexivity).
  split; [exact Hfile |]. split; [exact Hok |].
  destruct (main_success_touches_target_only positional_slice
              (sample_world 7600 6000) (sample_grid 7600 6000) Hfile Hok)
    as (_ & Hparent & _ & Hdir & Hnofile & _).
  split; [exact Hparent |]. split; [exact Hdir | exact Hnofile].
Defined.

Lemma main_idempotent_on_files_witness :
  Store.files (sample_world 7600 6000) !! PARENT_FILE
  = Some (sample_grid 7600 6000)
  /\ fst (Store.main positional_slice (sample_world 7600 6000)) = Ok tt
  /\ fst (Store.main positional_slice
            (snd (Store.main positional_slice (sample_world 7600 6000))))
     = Ok tt
  /\ Store.files
       (snd (Store.main positional_slice
               (snd (Store.main positional_slice (sample_world 7600 6000)))))
     = Store.files (snd (Store.main positional_slice (sample_world 7600 6000)))
  /\ Store.dirs
       (snd (Store.main positional_slice
               (snd (Store.main positional_slice (sample_world 7600 6000)))))
     = Store.dirs (snd (Store.main positional_slice (sample_world 7600 6000))).
Proof.
  assert (Hfile : Store.files (sample_world 7600 6000) !! PARENT_FILE
                  = Some (sample_grid 7600 6000)) by (vm_compute; reflexivity).
  assert (Hok : fst (Store.main positional_slice (sample_world 7600 6000))
                = Ok tt) by (vm_compute; reflexivity).
  split; [exact Hfile |]. split; [exact Hok |].
  exact (main_idempotent_on_files positional_slice (sample_world 7600 6000)
           (sample_grid 7600 6000) Hfile Hok).
Defined.

Lemma create_dataset_errors_witness :
  create_dataset positional_slice (incomplete_grid 6 6) (Extent 1 4 2 5) true
  = Raise (ValueError (not_found "e2f"))
  /\ ((exists pre v post,
         ALL_VARS = pre ++ v :: post
         /\ (forall u, u ∈ pre ->
               is_Some (variables (incomplete_grid 6 6) !! u))
         /\ variables (incomplete_grid 6 6) !! v = None
         /\ ValueError (not_found "e2f") = ValueError (not_found v))
      \/ (complete (incomplete_grid 6 6)
          /\ ValueError (not_found "e2f")
             = ValueError "conflicting sizes for dimension"))
  /\ forall name, ValueError (not_found "e2f") <> UnboundLocalError name.
Proof.
  assert (Herr : create_dataset positional_slice (incomplete_grid 6 6)
                                (Extent 1 4 2 5) true
                 = Raise (ValueError (not_found "e2f")))
    by (vm_compute; reflexivity).
  split; [exact Herr |].
  exact (create_dataset_errors positional_slice (incomplete_grid 6 6)
           (Extent 1 4 2 5) true _ Herr).
Defined.

Lemma create_dataset_dims_witness :
  uniform (sample_grid 6 6)
  /\ exists d,
       create_dataset positional_slice (sample_grid 6 6) (Extent 1 4 2 5) true
       = Ok d
       /\ dim_y d = 3%N /\ dim_x d = 3%N
       /\ forall v a, variables d !! v = Some a -> shape a = (3%N, 3%N).
Proof.
  pose proof (sample_grid_uniform 6 6) as Huniform.
  split; [exact Huniform |].
  destruct (create_dataset positional_slice (sample_grid 6 6)
                           (Extent 1 4 2 5) true) as [d | err] eqn:Hd.
  - exists d. split; [reflexivity |].
    exact (create_dataset_dims positional_slice (sample_grid 6 6)
             (Extent 1 4 2 5) true d Huniform Hd).
  - vm_compute in Hd. discriminate Hd.
Defined.

Lemma create_dataset_pacific_iff_witness :
  complete (sample_grid 4 4)
  /\ uniform (sample_grid 4 4)
  /\ ~ shift_stable positional_slice 4 3 10
  /\ create_dataset positional_slice (sample_grid 4 4) (Extent 3 10 0 2) true
     = Raise (ValueError "conflicting sizes for dimension").
Proof.
  pose proof (sample_grid_complete 4 4) as Hcomplete.
  pose proof (sample_grid_uniform 4 4) as Huniform.
  assert (Hunstable : ~ shift_stable positional_slice 4 3 10)
    by (intros H; vm_compute in H; discriminate H).
  split; [exact Hcomplete |]. split; [exact Huniform |].
  split; [exact Hunstable |].
  apply (proj2 (create_dataset_pacific_iff positional_slice (sample_grid 4 4)
                  (Extent 3 10 0 2) Hcomplete Huniform)).
  intros [Hy _]. exact (Hunstable Hy).
Defined.

Lemma create_dataset_reads_configured_only_witness :
  (forall v, v ∈ ALL_VARS ->
     variables (sample_grid 6 6) !! v = variables (unmasked_grid 6 6) !! v)
  /\ variables (sample_grid 6 6) !! "tmask" <> variables (unmasked_grid 6 6) !! "tmask"
  /\ create_dataset positional_slice (sample_grid 6 6) (Extent 1 4 2 5) true
     = create_dataset positional_slice (unmasked_grid 6 6) (Extent 1 4 2 5) true.
Proof.
  assert (Hagree : forall v, v ∈ ALL_VARS ->
            variables (sample_grid 6 6) !! v = variables (unmasked_grid 6 6) !! v).
  { intros v Hv. unfold ALL_VARS, T_VARS, U_VARS, V_VARS, F_VARS in Hv.
    cbn [app] in Hv. list_cases Hv; vm_compute; reflexivity. }
  split; [exact Hagree |]. split; [vm_compute; discriminate |].
  exact (create_dataset_reads_configured_only positional_slice
           (sample_grid 6 6) (unmasked_grid 6 6) (Extent 1 4 2 5) true Hagree).
Defined.

Lemma grid_selector_stays_inside_field_witness :
  in_axis positional_slice
  /\ variables (sample_grid 6 6) !! "glamu" = Some (pattern_field 6 6)
  /\ grid_selector positional_slice (sample_grid 6 6) "glamu"
                   (Extent (-3) 100 2 50) true
     = Ok (np_flip (sel positional_slice (pattern_field 6 6) (-3) 100 1 49))
  /\ (nrows (np_flip (sel positional_slice (pattern_field 6 6) (-3) 100 1 49))
      <= 6)%N
  /\ (ncols (np_flip (sel positional_slice (pattern_field 6 6) (-3) 100 1 49))
      <= 6)%N.
Proof.
  assert (Hvar : variables (sample_grid 6 6) !! "glamu"
                 = Some (pattern_field 6 6)) by (vm_compute; reflexivity).
  assert (Hr : grid_selector positional_slice (sample_grid 6 6) "glamu"
                             (Extent (-3) 100 2 50) true
               = Ok (np_flip (sel positional_slice (pattern_field 6 6)
                                  (-3) 100 1 49)))
    by (vm_compute; reflexivity).
  split; [exact positional_in_axis |]. split; [exact Hvar |].
  split; [exact Hr |].
  destruct (grid_selector_stays_inside_field positional_slice (sample_grid 6 6)
              "glamu" (pattern_field 6 6) (Extent (-3) 100 2 50) true _
              positional_in_axis Hvar Hr) as (Hrows & Hcols & _).
  split; assumption.
Defined.

Lemma pacific_flip_round_trip_witness :
  variables (sample_grid 6 6) !! "e1v" = Some (pattern_field 6 6)
  /\ "e1v" ∈ family_vars NorthFace
  /\ exists r,
       grid_selector positional_slice (sample_grid 6 6) "e1v"
                     (Extent 1 4 2 5) true = Ok r
       /\ to_lists (np_flip r)
          = to_lists (sel_extent positional_slice (pattern_field 6 6)
                                 (family_window NorthFace (Extent 1 4 2 5))).
Proof.
  assert (Hvar : variables (sample_grid 6 6) !! "e1v"
                 = Some (pattern_field 6 6)) by (vm_compute; reflexivity).
  assert (Hf : "e1v" ∈ family_vars NorthFace) by decide_closed.
  split; [exact Hvar |]. split; [exact Hf |].
  exact (pacific_flip_round_trip positional_slice (sample_grid 6 6) "e1v"
           (pattern_field 6 6) (Extent 1 4 2 5) NorthFace Hvar Hf).
Defined.

Lemma loaded_world_fresh : heap_fresh loaded_world.
Proof.
  intros r Hr. cbn [loaded_world Store.heap Store.next_ref] in *.
  apply lookup_singleton_ne. lia.
Qed.

Lemma store_create_dataset_frame_witness :
  heap_fresh loaded_world
  /\ Store.heap loaded_world !! 0%N = Some (sample_grid 6 6)
  /\ fst (Store.create_dataset positional_slice 0 (Extent 1 4 2 5) true
                               loaded_world) = Ok 1%N
  /\ Store.heap (snd (Store.create_dataset positional_slice 0 (Extent 1 4 2 5)
                                           true loaded_world)) !! 0%N
     = Some (sample_grid 6 6)
  /\ Store.files (snd (Store.create_dataset positional_slice 0 (Extent 1 4 2 5)
                                            true loaded_world))
     = Store.files loaded_world.
Proof.
  pose proof loaded_world_fresh as Hfresh.
  assert (Hpcf : Store.heap loaded_world !! 0%N = Some (sample_grid 6 6))
    by (vm_compute; reflexivity).
  split; [exact Hfresh |]. split; [exact Hpcf |].
  pose proof (store_create_dataset_frame positional_slice loaded_world 0
                (sample_grid 6 6) (Extent 1 4 2 5) true Hfresh Hpcf) as Hframe.
  destruct (create_dataset positional_slice (sample_grid 6 6)
                           (Extent 1 4 2 5) true) as [d | err] eqn:Hd.
  - destruct Hframe as (Hret & _ & _ & Hkeep & Hfiles & _).
    split; [exact Hret |]. split; assumption.
  - vm_compute in Hd. discriminate Hd.
Defined.

Lemma main_success_criterion_witness :
  complete (sample_grid 7600 6000)
  /\ uniform (sample_grid 7600 6000)
  /\ Store.files (sample_world 7600 6000) !! PARENT_FILE
     = Some (sample_grid 7600 6000)
  /\ Store.files (sample_world 7600 6000) !! TARGET_PATH = None
  /\ (Store.target_file ∉ Store.dirs (sample_world 7600 6000))
  /\ fst (Store.main positional_slice (sample_world 7600 6000)) = Ok tt
  /\ exists whole,
       Store.files (snd (Store.main positional_slice (sample_world 7600 6000)))
         !! Store.target_file = Some whole
       /\ dim_x whole = 4400%N /\ dim_y whole = 297%N.
Proof.
  pose proof (sample_grid_complete 7600 6000) as Hcomplete.
  pose proof (sample_grid_uniform 7600 6000) as Huniform.
  assert (Hfile : Store.files (sample_world 7600 6000) !! PARENT_FILE
                  = Some (sample_grid 7600 6000)) by (vm_compute; reflexivity).
  assert (Htarget : Store.files (sample_world 7600 6000) !! TARGET_PATH = None)
    by (vm_compute; reflexivity).
  assert (Hnodir : Store.target_file ∉ Store.dirs (sample_world 7600 6000))
    by decide_closed.
  destruct (main_success_criterion positional_slice (sample_world 7600 6000)
              (sample_grid 7600 6000) Hcomplete Huniform Hfile Htarget Hnodir)
    as (Hiff & Hdims & _).
  assert (Hok : fst (Store.main positional_slice (sample_world 7600 6000))
                = Ok tt).
  { apply Hiff. repeat split; try reflexivity; discriminate. }
  repeat (split; [assumption |]).
  destruct (Hdims Hok) as (whole & Hwhole & Hx & Hy).
  exists whole. split; [exact Hwhole |]. split; [exact Hx | exact Hy].
Defined.

Lemma main_positional_domain_witness :
  complete (sample_grid 7600 6001)
  /\ uniform (sample_grid 7600 6001)
  /\ Store.files (sample_world 7600 6001) !! PARENT_FILE
     = Some (sample_grid 7600 6001)
  /\ Store.files (sample_world 7600 6001) !! TARGET_PATH = None
  /\ (Store.target_file ∉ Store.dirs (sample_world 7600 6001))
  /\ fst (Store.main positional_slice (sample_world 7600 6001)) <> Ok tt
  /\ fst (Store.main positional_slice (sample_world 7600 6001))
     = Raise (AlignmentError "x").
Proof.
  pose proof (sample_grid_complete 7600 6001) as Hcomplete.
  pose proof (sample_grid_uniform 7600 6001) as Huniform.
  assert (Hfile : Store.files (sample_world 7600 6001) !! PARENT_FILE
                  = Some (sample_grid 7600 6001)) by (vm_compute; reflexivity).
  assert (Htarget : Store.files (sample_world 7600 6001) !! TARGET_PATH = None)
    by (vm_compute; reflexivity).
  assert (Hnodir : Store.target_file ∉ Store.dirs (sample_world 7600 6001))
    by decide_closed.
  destruct (main_positional_domain (sample_world 7600 6001)
              (sample_grid 7600 6001) Hcomplete Huniform Hfile Htarget Hnodir)
    as (Hiff & _ & Hodd).
  repeat (split; [assumption |]).
  split.
  - intros Hok. apply (proj1 Hiff) in Hok.
    cbn [sample_grid dim_x] in Hok.
    destruct Hok as (_ & _ & [[_ Heven] | [Hn | Hn]]);
      [vm_compute in Heven; discriminate Heven | discriminate Hn | lia].
  - apply Hodd; cbn [sample_grid dim_x dim_y];
      [lia | discriminate | reflexivity].
Defined.
